(** * Video watcher: the human-behaviour simulation engine

    A shallow embedding of [config.py], [utils.py], [automation.py],
    [socionator_integration.py] and [main.py], and the properties of the
    delay model, the Bezier motion generator, the action gate and the
    session sequencer.

    Conventions of the embedding.
    - Python [float] values are exact rationals ([Q]); an [int] used in
      float arithmetic is injected with [inject_Z].  The concrete inputs on
      which arithmetic is evaluated below are dyadic, so double arithmetic
      agrees on them.
    - Python [int] values are [Z].
    - The [random] module is an interface ([RandomGen]) threaded through
      the world; the browser, the HTTP endpoint and the clock are
      collaborators whose answers may depend on the calls made so far.
    - A Python exception is the outcome [Raise]; [try/except Exception]
      is [try_except].
    - Logging has no effect on control flow and is left out. *)

From Stdlib Require Import ZArith QArith Qround Lqa Lia List String Ascii Bool.
From Stdlib Require DecimalString.
From stdpp Require Import base gmap strings.
Import ListNotations.

Local Open Scope Z_scope.

(* ===================================================================== *)
(** ** Python values *)

Module Py.

(** [a < b] on floats. *)
Definition Qltb (a b : Q) : bool := negb (Qle_bool b a).

(** [int(x)] for a float [x]: truncation toward zero. *)
Definition int_of_float (x : Q) : Z := Z.quot (Qnum x) (Zpos (Qden x)).

(** Truthiness of an optional number, as used by [x or default]:
    [None] and zero are falsy. *)
Definition or_default (x : option Q) (d : Q) : Q :=
  match x with
  | Some v => if Qeq_bool v 0 then d else v
  | None => d
  end.

(** [range(n)]: empty for [n <= 0]. *)
Definition range (n : Z) : list Z := map Z.of_nat (seq 0 (Z.to_nat n)).

(** Truthiness of a string: the empty string is falsy. *)
Definition truthy (s : string) : bool :=
  match s with EmptyString => false | _ => true end.

(** Exceptions that the modelled code can see. *)
Inductive exn : Type :=
| ValueError
| TypeError
| IndexError
| TimeoutException
| WebDriverException
| RequestException.

(** [str(e)]: the message is not modelled, only the class. *)
Definition str_of_exn (e : exn) : string :=
  match e with
  | ValueError => "ValueError"
  | TypeError => "TypeError"
  | IndexError => "IndexError"
  | TimeoutException => "TimeoutException"
  | WebDriverException => "WebDriverException"
  | RequestException => "RequestException"
  end.

(** [a or b] on strings. *)
Definition str_or (a b : string) : string := if truthy a then a else b.

(** [s.lower()] on ASCII letters. *)
Definition lower_char (c : ascii) : ascii :=
  let n := nat_of_ascii c in
  if ((65 <=? n) && (n <=? 90))%nat then ascii_of_nat (n + 32) else c.

Fixpoint lower (s : string) : string :=
  match s with
  | EmptyString => EmptyString
  | String c rest => String (lower_char c) (lower rest)
  end.

End Py.

(* ===================================================================== *)
(** ** config.py *)

Module Config.

Record t : Type := mk {
  TARGET_VIDEO_URL : string;
  MIN_WATCH_TIME : Z;
  MAX_WATCH_TIME : Z;
  MIN_INTERACTION_DELAY : Q;
  MAX_INTERACTION_DELAY : Q;
  SCROLL_PROBABILITY : Q;
  CLICK_PROBABILITY : Q;
  TOR_PROXY_HOST : string;
  TOR_PROXY_PORT : Z;
  TOR_CONTROL_PORT : Z;
  TOR_PASSWORD : string;
  CUSTOM_PROXY : string;
  SOCIONATOR_API_KEY : string;
  SOCIONATOR_API_ENDPOINT : string;
  HEADLESS_MODE : bool;
  DEFAULT_WINDOW_WIDTH : Z;
  DEFAULT_WINDOW_HEIGHT : Z;
  LOG_LEVEL : string;
  LOG_FILE : string;
  UI_PORT : Z;
  UI_HOST : string
}.

(** [os.getenv(key, default)]. *)
Definition getenv (env : gmap string string) (key dflt : string) : string :=
  default dflt (env !! key).

Section Load.
(** [int(s)] and [float(s)] on strings; [None] is [ValueError]. *)
Variable int_of_string : string -> option Z.
Variable float_of_string : string -> option Q.

(** Evaluation of the class body, attribute by attribute, in source
    order.  [None]: one of the conversions raised [ValueError]. *)
Definition load (env : gmap string string) : option t :=
  let target := getenv env "TARGET_VIDEO_URL" "" in
  min_watch ← int_of_string (getenv env "MIN_WATCH_TIME" "30");
  max_watch ← int_of_string (getenv env "MAX_WATCH_TIME" "300");
  min_delay ← float_of_string (getenv env "MIN_INTERACTION_DELAY" "1.5");
  max_delay ← float_of_string (getenv env "MAX_INTERACTION_DELAY" "5.0");
  scroll_p ← float_of_string (getenv env "SCROLL_PROBABILITY" "0.3");
  click_p ← float_of_string (getenv env "CLICK_PROBABILITY" "0.2");
  let tor_host := getenv env "TOR_PROXY_HOST" "127.0.0.1" in
  tor_port ← int_of_string (getenv env "TOR_PROXY_PORT" "9050");
  control_port ← int_of_string (getenv env "TOR_CONTROL_PORT" "9051");
  let tor_password := getenv env "TOR_PASSWORD" "" in
  let custom_proxy := getenv env "CUSTOM_PROXY" "" in
  let api_key := getenv env "SOCIONATOR_API_KEY" "" in
  let api_endpoint :=
    getenv env "SOCIONATOR_API_ENDPOINT" "https://api.socionator.com/v1" in
  let headless := String.eqb (Py.lower (getenv env "HEADLESS_MODE" "True")) "true" in
  width ← int_of_string (getenv env "DEFAULT_WINDOW_WIDTH" "1920");
  height ← int_of_string (getenv env "DEFAULT_WINDOW_HEIGHT" "1080");
  let log_level := getenv env "LOG_LEVEL" "INFO" in
  let log_file := getenv env "LOG_FILE" "video_watcher.log" in
  ui_port ← int_of_string (getenv env "UI_PORT" "8000");
  let ui_host := getenv env "UI_HOST" "0.0.0.0" in
  Some (mk target min_watch max_watch min_delay max_delay scroll_p click_p
           tor_host tor_port control_port tor_password custom_proxy
           api_key api_endpoint headless width height
           log_level log_file ui_port ui_host).
End Load.

(** [Config.get_custom_proxy_url()]. *)
Definition get_custom_proxy_url (c : t) : option string :=
  if Py.truthy (CUSTOM_PROXY c) then Some (CUSTOM_PROXY c) else None.

(** [Config.get_window_size()]. *)
Definition get_window_size (c : t) : Z * Z :=
  (DEFAULT_WINDOW_WIDTH c, DEFAULT_WINDOW_HEIGHT c).

(** [Config.is_socionator_enabled()]. *)
Definition is_socionator_enabled (c : t) : bool :=
  Py.truthy (SOCIONATOR_API_KEY c) && Py.truthy (SOCIONATOR_API_ENDPOINT c).

(** *** Decimal literals

    The conversions restricted to plain decimal literals: an optional
    sign, digits, and for floats an optional fractional part.  Python
    accepts more (exponents, surrounding blanks, [inf]); the environments
    evaluated below stay inside this subset, and the general statements
    about [load] hold for any pair of conversions. *)

Definition digit_of (c : ascii) : option Z :=
  let n := Z.of_nat (nat_of_ascii c) in
  if (48 <=? n) && (n <=? 57) then Some (n - 48) else None.

(** Reads digits left to right; returns the value and the number of
    digits read. *)
Fixpoint digits (s : string) (acc : Z) (len : nat) : option (Z * nat) :=
  match s with
  | EmptyString => Some (acc, len)
  | String c rest =>
      match digit_of c with
      | Some d => digits rest (10 * acc + d) (S len)
      | None => None
      end
  end.

Definition unsigned_int (s : string) : option Z :=
  match digits s 0 0%nat with
  | Some (v, S _) => Some v
  | _ => None
  end.

Definition split_sign (s : string) : bool * string :=
  match s with
  | String "-"%char rest => (true, rest)
  | String "+"%char rest => (false, rest)
  | _ => (false, s)
  end.

Definition decimal_int (s : string) : option Z :=
  let (neg, body) := split_sign s in
  v ← unsigned_int body;
  Some (if neg then - v else v).

(** Splits at the first ['.']. *)
Fixpoint split_dot (s : string) : string * option string :=
  match s with
  | EmptyString => (EmptyString, None)
  | String "."%char rest => (EmptyString, Some rest)
  | String c rest =>
      let (a, b) := split_dot rest in (String c a, b)
  end.

Definition decimal_float (s : string) : option Q :=
  let (neg, body) := split_sign s in
  let (ip, fp) := split_dot body in
  match fp with
  | None =>
      v ← unsigned_int ip;
      Some (inject_Z (if neg then - v else v))
  | Some f =>
      '(iv, ilen) ← digits ip 0 0%nat;
      '(fv, flen) ← digits f 0 0%nat;
      if (ilen + flen =? 0)%nat then None
      else
        let num := iv * 10 ^ Z.of_nat flen + fv in
        Some (Qred (Qmake (if neg then - num else num)
                          (Z.to_pos (10 ^ Z.of_nat flen))))
  end.

End Config.

(* ===================================================================== *)
(** ** The [random] module *)

Module Random.

(** The generator state [G] and the three entry points the program
    calls.  [randint a b] is [None] when Python raises [ValueError]
    (empty range); [choice n] is the index picked in a sequence of
    length [n]. *)
Class RandomGen (G : Type) : Type := {
  random : G -> Q * G;
  randint : Z -> Z -> G -> option Z * G;
  choice : nat -> G -> nat * G
}.

(** [random.uniform(a, b)] is [a + (b - a) * random()]. *)
Definition uniform {G} `{RandomGen G} (a b : Q) (g : G) : Q * G :=
  let (u, g') := random g in ((a + (b - a) * u)%Q, g').

(** What the documentation of [random] promises. *)
Class RandomGenLaws (G : Type) `{RandomGen G} : Prop := {
  random_unit : forall g, (0 <= fst (random g) /\ fst (random g) < 1)%Q;
  randint_in : forall a b g, a <= b ->
    exists n, fst (randint a b g) = Some n /\ a <= n <= b;
  randint_empty : forall a b g, b < a -> fst (randint a b g) = None;
  choice_in : forall n g, (0 < n)%nat -> (fst (choice n g) < n)%nat
}.

(** A generator that always returns the least value of the range. *)
Definition least : RandomGen unit := {|
  random := fun g => (0%Q, g);
  randint := fun a b g => (if a <=? b then Some a else None, g);
  choice := fun _ g => (0%nat, g)
|}.

End Random.
Export Random.

(* ===================================================================== *)
(** ** The world: generator state and the calls made so far *)

Module World.

(** A DOM element handle: [element.location] and [element.size]. *)
Record Element : Type := mkElement {
  el_id : nat;
  location : Z * Z;
  size : Z * Z
}.

(** One queued step of an [ActionChains]. *)
Inductive action : Type :=
| MoveByOffset (x y : Z)
| Pause (d : Q).

(** Body of a POST to the telemetry endpoint. *)
Inductive payload : Type :=
| EventPayload (event_type video_url : string) (timestamp : Z)
               (metadata : gmap string string)
| SessionPayload (video_url : string) (watch_time : Z)
                 (interactions : gmap string Z)
                 (proxy_info : option string) (timestamp : Z).

(** Calls on the collaborators, in the order they are made. *)
Inductive event : Type :=
| Sleep (d : Q)
| DriverGet (url : string)
| WaitUntilPresent (selector : string)
| ScrollBy (amount : Z)
| ReadMousePosition
| FindElements (selector : string)
| ElementClick (e : Element)
| SendKeys (e : Element) (keys : string)
| Perform (chain : list action)
| HttpPost (url : string) (body : payload).

(** Result of [wait.until(presence_of_element_located(...))]. *)
Inductive lookup : Type :=
| Located (e : Element)
| TimedOut
| Broken.

(** The collaborators.  Each answer may depend on the calls made so
    far.  [false] and [None] stand for a raised exception. *)
Record Collab : Type := mkCollab {
  driver_get_ok : list event -> string -> bool;
  wait_until : list event -> string -> lookup;
  scroll_by_ok : list event -> Z -> bool;
  mouse_position : list event -> option (Z * Z);
  find_elements : list event -> string -> option (list Element);
  click_ok : list event -> Element -> bool;
  send_keys_ok : list event -> Element -> bool;
  perform_ok : list event -> list action -> bool;
  http_post : list event -> string -> payload -> option Z;
  clock : list event -> Z
}.

Record t (G : Type) : Type := mk {
  rng : G;
  trace : list event
}.
Arguments mk {G} _ _.
Arguments rng {G} _.
Arguments trace {G} _.

(** Outcome of a computation: a value, a Python exception, or the
    loop budget of the model ran out. *)
Inductive outcome (A : Type) : Type :=
| Ret (a : A)
| Raise (e : Py.exn)
| OutOfFuel.
Arguments Ret {A} _.
Arguments Raise {A} _.
Arguments OutOfFuel {A}.

End World.
Export World.

Definition M (G A : Type) : Type := World.t G -> outcome A * World.t G.

Section Monad.
Context {G : Type}.

Definition ret {A} (a : A) : M G A := fun w => (Ret a, w).

Definition bind {A B} (m : M G A) (k : A -> M G B) : M G B :=
  fun w =>
    match m w with
    | (Ret a, w') => k a w'
    | (Raise e, w') => (Raise e, w')
    | (OutOfFuel, w') => (OutOfFuel, w')
    end.

Definition raise {A} (e : Py.exn) : M G A := fun w => (Raise e, w).

(** [try: m  except Exception: h]. *)
Definition try_except {A} (m : M G A) (h : Py.exn -> M G A) : M G A :=
  fun w =>
    match m w with
    | (Raise e, w') => h e w'
    | r => r
    end.

(** [try: m  except TimeoutException: h]; other exceptions propagate. *)
Definition try_except_timeout {A} (m : M G A) (h : M G A) : M G A :=
  fun w =>
    match m w with
    | (Raise Py.TimeoutException, w') => h w'
    | r => r
    end.

(** Records a call and hands the trace before the call to [f]. *)
Definition call {A} (ev : event) (f : list event -> outcome A) : M G A :=
  fun w => (f (trace w), World.mk (rng w) (trace w ++ [ev])).

Definition ok_or_raise (b : bool) (e : Py.exn) : outcome unit :=
  if b then Ret tt else Raise e.

Definition some_or_raise {A} (o : option A) (e : Py.exn) : outcome A :=
  match o with Some a => Ret a | None => Raise e end.

(** Draws from the generator. *)
Definition draw {A} (f : G -> A * G) : M G A :=
  fun w => let (a, g') := f (rng w) in (Ret a, World.mk g' (trace w)).
End Monad.

Notation "x <- m ;; k" := (bind m (fun x => k))
  (at level 20, m at level 99, k at level 200, only parsing).
Notation "m ;;; k" := (bind m (fun _ => k))
  (at level 20, k at level 200, only parsing).

(* ===================================================================== *)
(** ** utils.py *)

Module Utils.
Section Utils.
Context {G : Type} `{RandomGen G}.
Variable cfg : Config.t.
Variable co : Collab.

(** [random.randint(a, b)]. *)
Definition py_randint (a b : Z) : M G Z :=
  fun w =>
    let (r, g') := randint a b (rng w) in
    (some_or_raise r Py.ValueError, World.mk g' (trace w)).

(** [time.sleep(d)]: a negative length raises [ValueError]. *)
Definition sleep (d : Q) : M G unit :=
  call (Sleep d) (fun _ => ok_or_raise (Qle_bool 0 d) Py.ValueError).

Definition generate_random_delay (min_delay max_delay : option Q) : M G Q :=
  let min_delay := Py.or_default min_delay (Config.MIN_INTERACTION_DELAY cfg) in
  let max_delay := Py.or_default max_delay (Config.MAX_INTERACTION_DELAY cfg) in
  delay <- draw (uniform min_delay max_delay) ;;
  ret delay.

Definition wait_random_delay (min_delay max_delay : option Q) : M G unit :=
  d <- generate_random_delay min_delay max_delay ;;
  sleep d.

(** The cubic Bezier formula on one coordinate, parenthesised as the
    Python expression is. *)
Definition bezier (t : Q) (a b c d : Z) : Q :=
  ((1 - t) ^ 3 * inject_Z a + 3 * (1 - t) ^ 2 * t * inject_Z b
   + 3 * (1 - t) * t ^ 2 * inject_Z c + t ^ 3 * inject_Z d)%Q.

(** Body of the [for t in range(steps)] loop: one [append]. *)
Definition bezier_step (p0 p1 p2 p3 : Z * Z) (steps : Z)
    (points : list (Z * Z)) (i : Z) : list (Z * Z) :=
  let t := (inject_Z i / inject_Z steps)%Q in
  let x := bezier t (fst p0) (fst p1) (fst p2) (fst p3) in
  let y := bezier t (snd p0) (snd p1) (snd p2) (snd p3) in
  points ++ [(Py.int_of_float x, Py.int_of_float y)].

Definition _generate_bezier_curve (p0 p1 p2 p3 : Z * Z) (steps : Z)
    : list (Z * Z) :=
  fold_left (bezier_step p0 p1 p2 p3 steps) (Py.range steps) [].

(** The [for point in points] loop: queues a move and a pause per
    point. *)
Fixpoint queue_moves (points : list (Z * Z)) (actions : list action)
    : M G (list action) :=
  match points with
  | [] => ret actions
  | point :: rest =>
      d <- draw (uniform 0.001 0.003) ;;
      queue_moves rest
        (actions ++ [MoveByOffset (fst point) (snd point); Pause d])
  end.

(** The two control points, drawn in source order. *)
Definition control_points (start_coords end_coords : Z * Z)
    : M G ((Z * Z) * (Z * Z)) :=
  dx1 <- py_randint (-100) 100 ;;
  dy1 <- py_randint (-100) 100 ;;
  let control_point1 := (fst start_coords + dx1, snd start_coords + dy1) in
  dx2 <- py_randint (-100) 100 ;;
  dy2 <- py_randint (-100) 100 ;;
  let control_point2 := (fst end_coords + dx2, snd end_coords + dy2) in
  ret (control_point1, control_point2).

Definition generate_human_like_mouse_movement
    (start_coords end_coords : Z * Z) (steps : Z) : M G unit :=
  cps <- control_points start_coords end_coords ;;
  let points :=
    _generate_bezier_curve start_coords (fst cps) (snd cps) end_coords steps in
  actions <- queue_moves points [] ;;
  call (Perform actions)
       (fun tr => ok_or_raise (perform_ok co tr actions) Py.WebDriverException).

Definition should_perform_action (probability : Q) : M G bool :=
  u <- draw random ;;
  ret (Py.Qltb u probability).

End Utils.
End Utils.

(* ===================================================================== *)
(** ** automation.py *)

Module Automation.
Section Automation.
Context {G : Type} `{RandomGen G}.
Variable cfg : Config.t.
Variable co : Collab.

Abbreviation wait_random_delay := (Utils.wait_random_delay cfg).
Abbreviation py_randint := Utils.py_randint.

Definition navigate_to_url (url : string) : M G bool :=
  try_except
    (call (DriverGet url)
          (fun tr => ok_or_raise (driver_get_ok co tr url) Py.WebDriverException) ;;;
     wait_random_delay (Some 2%Q) (Some 4%Q) ;;;
     ret true)
    (fun _ => ret false).

Definition selectors : list string :=
  [ "video"; "iframe[src*='youtube']"; "iframe[src*='vimeo']"; "#movie_player" ].

(** [self.wait.until(EC.presence_of_element_located(...))]. *)
Definition wait_for (selector : string) : M G Element :=
  call (WaitUntilPresent selector)
       (fun tr =>
          match wait_until co tr selector with
          | Located e => Ret e
          | TimedOut => Raise Py.TimeoutException
          | Broken => Raise Py.WebDriverException
          end).

(** The [for selector in selectors] loop; a timeout moves on to the
    next selector. *)
Fixpoint try_selectors (sels : list string) : M G (option Element) :=
  match sels with
  | [] => ret None
  | selector :: rest =>
      try_except_timeout
        (element <- wait_for selector ;; ret (Some element))
        (try_selectors rest)
  end.

Definition _find_video_element : M G (option Element) :=
  try_except (try_selectors selectors) (fun _ => ret None).

Definition _get_current_mouse_position : M G (Z * Z) :=
  try_except
    (call ReadMousePosition
          (fun tr => some_or_raise (mouse_position co tr) Py.WebDriverException))
    (fun _ => ret (0, 0)).

Definition _simulate_click (element : Element) : M G bool :=
  try_except
    (let location := location element in
     let size := size element in
     rx <- py_randint 5 (fst size - 5) ;;
     let click_x := fst location + rx in
     ry <- py_randint 5 (snd size - 5) ;;
     let click_y := snd location + ry in
     current_mouse <- _get_current_mouse_position ;;
     Utils.generate_human_like_mouse_movement co current_mouse (click_x, click_y) 25 ;;;
     call (ElementClick element)
          (fun tr => ok_or_raise (click_ok co tr element) Py.WebDriverException) ;;;
     wait_random_delay (Some 0.1%Q) (Some 0.3%Q) ;;;
     ret true)
    (fun _ => ret false).

Definition _ensure_video_playing (video_element : Element) : M G bool :=
  try_except
    (_simulate_click video_element ;;;
     wait_random_delay None None ;;;
     call (SendKeys video_element " ")
          (fun tr => ok_or_raise (send_keys_ok co tr video_element)
                                 Py.WebDriverException) ;;;
     wait_random_delay None None ;;;
     ret true)
    (fun _ => ret false).

Definition _perform_random_scroll : M G unit :=
  try_except
    (scroll_amount <- py_randint (-300) 300 ;;
     call (ScrollBy scroll_amount)
          (fun tr => ok_or_raise (scroll_by_ok co tr scroll_amount)
                                 Py.WebDriverException) ;;;
     wait_random_delay None None)
    (fun _ => ret tt).

(** The CSS selector of the safe elements; character 34 is the double
    quote around [#]. *)
Definition safe_selector : string :=
  String.append "button, .button, .btn, a[href="
    (String (ascii_of_nat 34) (String "#" (String (ascii_of_nat 34) "]"))).

(** [random.choice(seq)]. *)
Definition py_choice (seq : list Element) : M G Element :=
  i <- draw (choice (length seq)) ;;
  match nth_error seq i with
  | Some e => ret e
  | None => raise Py.IndexError
  end.

Definition _perform_random_click : M G unit :=
  try_except
    (safe_elements <-
       call (FindElements safe_selector)
            (fun tr => some_or_raise (find_elements co tr safe_selector)
                                     Py.WebDriverException) ;;
     match safe_elements with
     | [] => ret tt
     | _ =>
         element <- py_choice safe_elements ;;
         _simulate_click element ;;;
         ret tt
     end)
    (fun _ => ret tt).

(** The [while start_time < watch_time] loop; returns the final value
    of [start_time].  [fuel] bounds the number of iterations. *)
Fixpoint watch_loop (fuel : nat) (watch_time start_time : Z) : M G Z :=
  if start_time <? watch_time then
    match fuel with
    | O => fun w => (OutOfFuel, w)
    | S fuel' =>
        scroll <- Utils.should_perform_action (Config.SCROLL_PROBABILITY cfg) ;;
        (if scroll : bool then _perform_random_scroll else ret tt) ;;;
        click <- Utils.should_perform_action (Config.CLICK_PROBABILITY cfg) ;;
        (if click : bool then _perform_random_click else ret tt) ;;;
        r <- py_randint 5 15 ;;
        let interval := Z.min r (watch_time - start_time) in
        wait_random_delay (Some (inject_Z interval))
                          (Some (inject_Z (interval + 2))) ;;;
        watch_loop fuel' watch_time (start_time + interval)
    end
  else ret start_time.

Definition simulate_video_watching (fuel : nat) (url : string)
    (watch_time : option Z) : M G bool :=
  try_except
    (navigated <- navigate_to_url url ;;
     if negb navigated then ret false
     else
       video_element <- _find_video_element ;;
       match video_element with
       | None => ret false
       | Some video_element =>
           watch_time <-
             match watch_time with
             | None => py_randint (Config.MIN_WATCH_TIME cfg)
                                  (Config.MAX_WATCH_TIME cfg)
             | Some t => ret t
             end ;;
           _ensure_video_playing video_element ;;;
           watch_loop fuel watch_time 0 ;;;
           ret true
       end)
    (fun _ => ret false).

End Automation.
End Automation.

(* ===================================================================== *)
(** ** socionator_integration.py *)

Module Socionator.
Section Socionator.
Context {G : Type}.
Variable co : Collab.

Record SocionatorAPI : Type := mkAPI {
  api_key : string;
  api_endpoint : string
}.

(** [SocionatorAPI.__init__]: the key and the endpoint come from the
    configuration. *)
Definition init (cfg : Config.t) : SocionatorAPI :=
  mkAPI (Config.SOCIONATOR_API_KEY cfg) (Config.SOCIONATOR_API_ENDPOINT cfg).

(** [int(time.time())]. *)
Definition now : M G Z := fun w => (Ret (clock co (trace w)), w).

Definition post (url : string) (body : payload) : M G Z :=
  call (HttpPost url body)
       (fun tr => some_or_raise (http_post co tr url body) Py.RequestException).

Definition send_engagement_event (self : SocionatorAPI)
    (event_type video_url : string) (metadata : gmap string string)
    : M G bool :=
  if negb (Py.truthy (api_key self)) then ret false
  else
    try_except
      (timestamp <- now ;;
       let body := EventPayload event_type video_url timestamp metadata in
       status_code <- post (String.append (api_endpoint self) "/events") body ;;
       if status_code =? 201 then ret true else ret false)
      (fun _ => ret false).

Definition send_watch_session (self : SocionatorAPI) (video_url : string)
    (watch_time : Z) (interactions : gmap string Z)
    (proxy_used : option string) : M G bool :=
  try_except
    (timestamp <- now ;;
     let body :=
       SessionPayload video_url watch_time interactions proxy_used timestamp in
     status_code <- post (String.append (api_endpoint self) "/sessions") body ;;
     if status_code =? 201 then ret true else ret false)
    (fun _ => ret false).

End Socionator.
End Socionator.

(* ===================================================================== *)
(** ** main.py *)

Module Main.
Section Main.
Context {G : Type} `{RandomGen G}.
Variable cfg : Config.t.
Variable co : Collab.

(** The parsed command line. *)
Record Args : Type := mkArgs {
  url : option string;
  watch_time : option Z;
  custom_proxy : option string;
  headless : bool;
  debug : bool
}.

Record SessionData : Type := mkSessionData {
  start_time : option Z;
  interactions : gmap string Z
}.

(** [tor_manager] is [true] when a [TorManager] is attached. *)
Record VideoWatcher : Type := mkWatcher {
  args : Args;
  tor_manager : bool;
  socionator : option Socionator.SocionatorAPI;
  session_data : SessionData
}.

(** [self.session_data] as [__init__] builds it. *)
Definition initial_session_data : SessionData :=
  mkSessionData None
    (<["clicks" := 0]> (<["scrolls" := 0]> (<["pauses" := 0]> ∅))).

(** [VideoWatcher.__init__]. *)
Definition init (a : Args) : VideoWatcher :=
  mkWatcher a false None initial_session_data.

(** The watcher after [initialize_components] has returned [True]: a Tor
    manager unless a custom proxy is given, and a telemetry client when
    the configuration enables it. *)
Definition initialized (self : VideoWatcher) : VideoWatcher :=
  mkWatcher (args self)
            (match custom_proxy (args self) with
             | Some proxy => negb (Py.truthy proxy)
             | None => true
             end)
            (if Config.is_socionator_enabled cfg
             then Some (Socionator.init cfg) else None)
            (session_data self).

Definition set_start_time (self : VideoWatcher) (t : Z) : VideoWatcher :=
  mkWatcher (args self) (tor_manager self) (socionator self)
            (mkSessionData (Some t) (interactions (session_data self))).

Definition _report_session_completion (self : VideoWatcher)
    (video_url : string) : M G unit :=
  match socionator self with
  | Some api =>
      t <- Socionator.now co ;;
      match start_time (session_data self) with
      | Some t0 =>
          let watch_time := t - t0 in
          Socionator.send_watch_session co api video_url watch_time
            (interactions (session_data self))
            (if tor_manager self then Some "tor" else custom_proxy (args self)) ;;;
          ret tt
      | None => raise Py.TypeError
      end
  | None => ret tt
  end.

Definition _report_session_error (self : VideoWatcher)
    (video_url error_message : string) : M G unit :=
  match socionator self with
  | Some api =>
      Socionator.send_engagement_event co api "session_error" video_url
        (<["error" := error_message]> ∅) ;;;
      ret tt
  | None => ret tt
  end.

(** [run_session]; returns the result and the watcher as the call
    leaves it.  The clock is read before the handler is installed: it
    cannot raise. *)
Definition run_session (fuel : nat) (self : VideoWatcher)
    : M G (bool * VideoWatcher) :=
  t0 <- Socionator.now co ;;
  let self := set_start_time self t0 in
  let video_url :=
    Py.str_or (default "" (url (args self))) (Config.TARGET_VIDEO_URL cfg) in
  try_except
    (if negb (Py.truthy video_url) then ret (false, self)
     else
       match socionator self with
       | Some api =>
           Socionator.send_engagement_event co api "session_start" video_url
             (<["proxy_type" := if tor_manager self then "tor" else "custom"]> ∅) ;;;
           ret tt
       | None => ret tt
       end ;;;
       success <- Automation.simulate_video_watching cfg co fuel video_url
                    (watch_time (args self)) ;;
       if success : bool then
         _report_session_completion self video_url ;;;
         ret (true, self)
       else
         _report_session_error self video_url "Simulation failed" ;;;
         ret (false, self))
    (fun e =>
       (if Py.truthy video_url then
          _report_session_error self video_url (Py.str_of_exn e)
        else ret tt) ;;;
       ret (false, self)).

End Main.
End Main.

(* ===================================================================== *)
(** ** automation.py: cookies *)

Module Cookies.

(** A cookie as the driver hands it out: a dictionary of fields. *)
Definition cookie : Type := gmap string string.

(** Calls on the driver's cookie jar. *)
Inductive call : Type :=
| GetCookies
| AddCookie (c : cookie).

(** The driver: its answers may depend on the calls made so far.  [None]
    and [false] stand for a raised exception. *)
Record Driver : Type := mkDriver {
  get_cookies : list call -> option (list cookie);
  add_cookie_ok : list call -> cookie -> bool
}.

(** The [for cookie in self.cookies] loop; [false] when [add_cookie]
    raised, and the loop stopped there. *)
Fixpoint add_all (dr : Driver) (cookies : list cookie) (calls : list call)
    : bool * list call :=
  match cookies with
  | [] => (true, calls)
  | c :: rest =>
      if add_cookie_ok dr calls c
      then add_all dr rest (calls ++ [AddCookie c])
      else (false, calls ++ [AddCookie c])
  end.

(** [manage_cookies(action)].  [saved] is the attribute [self.cookies],
    [None] while the attribute does not exist; the result is the returned
    boolean, the attribute afterwards and the calls made. *)
Definition manage_cookies (dr : Driver) (saved : option (list cookie))
    (action : string) (calls : list call)
    : bool * option (list cookie) * list call :=
  if String.eqb action "save" then
    match get_cookies dr calls with
    | Some cookies => (true, Some cookies, calls ++ [GetCookies])
    | None => (false, saved, calls ++ [GetCookies])
    end
  else if String.eqb action "load" then
    match saved with
    | Some cookies =>
        let (ok, calls') := add_all dr cookies calls in (ok, saved, calls')
    | None => (false, saved, calls)
    end
  else (false, saved, calls).

End Cookies.

(* ===================================================================== *)
(** ** Start-up and shutdown: tor_manager.py, [launch_browser],
       [SocionatorAPI.initialize], [initialize_components], [cleanup] *)

Module Startup.

(** [str(n)] for an int. *)
Definition str_of_int (n : Z) : string :=
  DecimalString.NilZero.string_of_int (Z.to_int n).

(** Calls on the outside world, in the order they are made. *)
Inductive call : Type :=
| TorConnect (address : string) (port : Z)
| TorAuthenticate (password : option string)
| TorCheck (proxy : string)
| UserAgentRandom
| InstallDriver
| StartChrome (options : list string)
| StatusGet (url : string)
| DriverQuit
| TorClose
| SessionClose.

(** What the request to check.torproject.org leads to: a
    [RequestException], another exception, or a status code with the
    truth value of the [IsTor] field of the answer. *)
Inductive check_answer : Type :=
| RequestError
| OtherError
| Answer (status : Z) (is_tor : bool).

(** The outside world.  Each answer may depend on the calls made so far;
    [false] and [None] stand for a raised exception. *)
Record Outside : Type := mkOutside {
  tor_connect_ok : list call -> bool;
  tor_auth_ok : list call -> bool;
  tor_check : list call -> check_answer;
  user_agent : list call -> option string;
  install_ok : list call -> bool;
  chrome_ok : list call -> bool;
  status_get : list call -> option Z
}.

(** *** tor_manager.py *)

(** [controller] is [true] once [Controller.from_port] has returned. *)
Record TorManager : Type := mkTor {
  host : string;
  port : Z;
  control_port : Z;
  password : string;
  controller : bool
}.

(** [TorManager.__init__]. *)
Definition tor_init (cfg : Config.t) : TorManager :=
  mkTor (Config.TOR_PROXY_HOST cfg) (Config.TOR_PROXY_PORT cfg)
        (Config.TOR_CONTROL_PORT cfg) (Config.TOR_PASSWORD cfg) false.

(** The f-string [socks5h://{self.host}:{self.port}]. *)
Definition socks_url (self : TorManager) : string :=
  String.append "socks5h://"
    (String.append (host self) (String.append ":" (str_of_int (port self)))).

(** [get_proxy_settings]: the [http] and [https] entries of the [proxy]
    dictionary. *)
Definition get_proxy_settings (self : TorManager) : string * string :=
  (socks_url self, socks_url self).

(** [validate_tor_connection]; [None] when an exception other than a
    [RequestException] leaves the method. *)
Definition validate_tor_connection (out : Outside) (self : TorManager)
    (calls : list call) : option bool * list call :=
  (match tor_check out calls with
   | RequestError => Some false
   | OtherError => None
   | Answer status is_tor => Some ((status =? 200) && is_tor)
   end,
   calls ++ [TorCheck (socks_url self)]).

(** [start]. *)
Definition start (out : Outside) (self : TorManager) (calls : list call)
    : bool * TorManager * list call :=
  let calls1 := calls ++ [TorConnect (host self) (control_port self)] in
  if tor_connect_ok out calls then
    let self := mkTor (host self) (port self) (control_port self)
                      (password self) true in
    let calls2 :=
      calls1 ++ [TorAuthenticate (if Py.truthy (password self)
                                  then Some (password self) else None)] in
    if tor_auth_ok out calls1 then
      match validate_tor_connection out self calls2 with
      | (Some valid, calls3) => (valid, self, calls3)
      | (None, calls3) => (false, self, calls3)
      end
    else (false, self, calls2)
  else (false, self, calls1).

(** [stop]; an exception raised by [close] is swallowed. *)
Definition stop (out : Outside) (self : TorManager) (calls : list call)
    : list call :=
  if controller self then calls ++ [TorClose] else calls.

(** *** automation.py: the browser process *)

(** [proxy_settings] holds the [http] and [https] entries of the
    [proxy] dictionary; [driver] is [true] once Chrome has started. *)
Record BrowserAutomation : Type := mkBrowser {
  proxy_settings : option (string * string);
  driver : bool
}.

(** [BrowserAutomation.__init__]. *)
Definition browser_init (proxy : option (string * string)) : BrowserAutomation :=
  mkBrowser proxy false.

Definition fallback_user_agent : string :=
  "Mozilla/5.0 (Windows NT 10.0; Win64; x64) AppleWebKit/537.36 (KHTML, like Gecko) Chrome/91.0.4472.124 Safari/537.36".

(** The arguments added to the Chrome options, in order. *)
Definition chrome_options (cfg : Config.t) (self : BrowserAutomation)
    (agent : string) : list string :=
  (if Config.HEADLESS_MODE cfg then ["--headless"] else [])
  ++ [ "--no-sandbox"; "--disable-dev-shm-usage"; "--disable-gpu";
       "--disable-extensions"; "--disable-notifications";
       String.append "--window-size="
         (String.append (str_of_int (Config.DEFAULT_WINDOW_WIDTH cfg))
            (String.append "," (str_of_int (Config.DEFAULT_WINDOW_HEIGHT cfg))));
       String.append "user-agent=" agent ]
  ++ match proxy_settings self with
     | Some (_, https) => [String.append "--proxy-server=" https]
     | None => []
     end.

(** [launch_browser]; [get_random_user_agent] falls back to a fixed
    string when the generator fails. *)
Definition launch_browser (cfg : Config.t) (out : Outside)
    (self : BrowserAutomation) (calls : list call)
    : bool * BrowserAutomation * list call :=
  let agent := default fallback_user_agent (user_agent out calls) in
  let calls1 := calls ++ [UserAgentRandom] in
  let options := chrome_options cfg self agent in
  let calls2 := calls1 ++ [InstallDriver] in
  if install_ok out calls1 then
    let calls3 := calls2 ++ [StartChrome options] in
    if chrome_ok out calls2
    then (true, mkBrowser (proxy_settings self) true, calls3)
    else (false, self, calls3)
  else (false, self, calls2).

(** [close_browser]; an exception raised by [quit] is swallowed. *)
Definition close_browser (out : Outside) (self : BrowserAutomation)
    (calls : list call) : list call :=
  if driver self then calls ++ [DriverQuit] else calls.

(** *** socionator_integration.py: connection *)

(** [SocionatorAPI.initialize]. *)
Definition initialize (out : Outside) (self : Socionator.SocionatorAPI)
    (calls : list call) : bool * list call :=
  if negb (Py.truthy (Socionator.api_key self))
     || negb (Py.truthy (Socionator.api_endpoint self))
  then (false, calls)
  else
    (match status_get out calls with
     | Some status => status =? 200
     | None => false
     end,
     calls ++ [StatusGet (String.append (Socionator.api_endpoint self) "/status")]).

(** [SocionatorAPI.close]; an exception raised by the session is
    swallowed. *)
Definition close (out : Outside) (calls : list call) : list call :=
  calls ++ [SessionClose].

(** *** main.py: components *)

Record Components : Type := mkComponents {
  tor_manager : option TorManager;
  browser : option BrowserAutomation;
  socionator : option Socionator.SocionatorAPI
}.

(** The components as [VideoWatcher.__init__] leaves them. *)
Definition no_components : Components := mkComponents None None None.

(** The part of [initialize_components] that follows the choice of the
    proxy settings: the browser, then the telemetry client. *)
Definition initialize_behind_proxy (cfg : Config.t) (out : Outside)
    (proxy : string * string) (self : Components) (calls : list call)
    : bool * Components * list call :=
  let '(launched, b, calls) :=
    launch_browser cfg out (browser_init (Some proxy)) calls in
  let self := mkComponents (tor_manager self) (Some b) (socionator self) in
  if negb launched then (false, self, calls)
  else if Config.is_socionator_enabled cfg then
    let api := Socionator.init cfg in
    let '(_, calls) := initialize out api calls in
    (true, mkComponents (tor_manager self) (browser self) (Some api), calls)
  else (true, self, calls).

(** [initialize_components], for the [--custom-proxy] argument
    [custom_proxy]. *)
Definition initialize_components (cfg : Config.t) (out : Outside)
    (custom_proxy : option string) (self : Components) (calls : list call)
    : bool * Components * list call :=
  if negb (Py.truthy (default "" custom_proxy)) then
    let '(started, tor, calls) := start out (tor_init cfg) calls in
    let self := mkComponents (Some tor) (browser self) (socionator self) in
    if negb started then (false, self, calls)
    else initialize_behind_proxy cfg out (get_proxy_settings tor) self calls
  else
    initialize_behind_proxy cfg out
      (default "" custom_proxy, default "" custom_proxy) self calls.

(** [cleanup]. *)
Definition cleanup (out : Outside) (self : Components) (calls : list call)
    : list call :=
  let calls :=
    match browser self with
    | Some b => close_browser out b calls
    | None => calls
    end in
  let calls :=
    match tor_manager self with
    | Some tor => stop out tor calls
    | None => calls
    end in
  match socionator self with
  | Some _ => close out calls
  | None => calls
  end.

End Startup.

(* ===================================================================== *)
(** * Vocabulary of the properties *)

#[global] Existing Instance Random.least.

(** ** The Bezier curve *)

(** The point that the curve loop appends for parameter [t]. *)
Definition point_at (p0 p1 p2 p3 : Z * Z) (t : Q) : Z * Z :=
  (Py.int_of_float (Utils.bezier t (fst p0) (fst p1) (fst p2) (fst p3)),
   Py.int_of_float (Utils.bezier t (snd p0) (snd p1) (snd p2) (snd p3))).

(** The parameter of loop index [i]: [i / steps]. *)
Definition param (steps i : Z) : Q := (inject_Z i / inject_Z steps)%Q.

(** The points visited by a chain of pointer actions, in order. *)
Fixpoint moves_of (chain : list action) : list (Z * Z) :=
  match chain with
  | [] => []
  | MoveByOffset x y :: rest => (x, y) :: moves_of rest
  | Pause _ :: rest => moves_of rest
  end.

(** [cp] is [p] moved by at most 100 units on each axis. *)
Definition within_jitter (p cp : Z * Z) : Prop :=
  -100 <= fst cp - fst p <= 100 /\ -100 <= snd cp - snd p <= 100.


(** ** Configurations *)

(** The environment variables that [Config] reads. *)
Definition settings : list string :=
  [ "TARGET_VIDEO_URL"; "MIN_WATCH_TIME"; "MAX_WATCH_TIME";
    "MIN_INTERACTION_DELAY"; "MAX_INTERACTION_DELAY";
    "SCROLL_PROBABILITY"; "CLICK_PROBABILITY";
    "TOR_PROXY_HOST"; "TOR_PROXY_PORT"; "TOR_CONTROL_PORT"; "TOR_PASSWORD";
    "CUSTOM_PROXY"; "SOCIONATOR_API_KEY"; "SOCIONATOR_API_ENDPOINT";
    "HEADLESS_MODE"; "DEFAULT_WINDOW_WIDTH"; "DEFAULT_WINDOW_HEIGHT";
    "LOG_LEVEL"; "LOG_FILE"; "UI_PORT"; "UI_HOST" ].

(** A configuration with the default settings except the delay bounds,
    the two probabilities and the API key. *)
Definition config_with (min_delay max_delay scroll_p click_p : Q)
    (api_key : string) : Config.t :=
  Config.mk "" 30 300 min_delay max_delay scroll_p click_p
            "127.0.0.1" 9050 9051 "" ""
            api_key "https://api.socionator.com/v1"
            true 1920 1080 "INFO" "video_watcher.log" 8000 "0.0.0.0".

(** The configuration that [Config.load] builds from an empty
    environment. *)
Definition default_config : Config.t :=
  config_with (3 # 2) 5 (3 # 10) (1 # 5) "".

(** An environment with a probability above 1 and an inverted delay
    range. *)
Definition bad_env : gmap string string :=
  <["SCROLL_PROBABILITY" := "1.5"]>
    (<["MIN_INTERACTION_DELAY" := "5.0"]>
       (<["MAX_INTERACTION_DELAY" := "1.5"]> ∅)).

Definition bad_config : Config.t :=
  config_with 5 (3 # 2) (3 # 2) (1 # 5) "".

(** The default configuration with telemetry enabled. *)
Definition telemetry_config : Config.t :=
  config_with (3 # 2) 5 (3 # 10) (1 # 5) "secret".

(** The default configuration with the watch-time bounds swapped. *)
Definition inverted_watch_config : Config.t :=
  Config.mk "" 300 30 (3 # 2) 5 (3 # 10) (1 # 5)
            "127.0.0.1" 9050 9051 "" ""
            "" "https://api.socionator.com/v1"
            true 1920 1080 "INFO" "video_watcher.log" 8000 "0.0.0.0".

(** The configuration of the scroll-only scenario: scroll probability 1,
    click probability 0, telemetry enabled. *)
Definition scenario_config : Config.t :=
  config_with (3 # 2) 5 1 0 "secret".

(** ** Calls and traces *)

(** Calls that neither scroll the page, nor look for safe elements, nor
    post telemetry. *)
Definition benign (ev : event) : Prop :=
  match ev with
  | ScrollBy _ | FindElements _ | HttpPost _ _ => False
  | _ => True
  end.

(** Calls that are neither a scroll nor a telemetry post. *)
Definition non_scroll (ev : event) : Prop :=
  match ev with
  | ScrollBy _ | HttpPost _ _ => False
  | _ => True
  end.

Definition is_scroll (ev : event) : bool :=
  match ev with ScrollBy _ => true | _ => false end.

Definition is_find (ev : event) : bool :=
  match ev with FindElements _ => true | _ => false end.

Definition is_post (ev : event) : bool :=
  match ev with HttpPost _ _ => true | _ => false end.

(** Calls that are neither a scroll nor a search for safe elements. *)
Definition off_page (ev : event) : Prop :=
  is_scroll ev = false /\ is_find ev = false.

(** Number of calls in [evs] that satisfy [p]. *)
Fixpoint count_calls (p : event -> bool) (evs : list event) : nat :=
  match evs with
  | [] => 0
  | ev :: rest => (if p ev then 1 else 0) + count_calls p rest
  end.

(** [ev] is a [session_error] telemetry event whose [error] field is
    [reason]. *)
Definition session_error_with (reason : string) (ev : event) : bool :=
  match ev with
  | HttpPost _ (EventPayload event_type _ _ metadata) =>
      String.eqb event_type "session_error"
      && match metadata !! "error" with
         | Some r => String.eqb r reason
         | None => false
         end
  | _ => false
  end.

(** [m] always finishes within its loop budget, and every call it makes
    satisfies [P]. *)
Definition emits {G : Type} (P : event -> Prop) {A : Type} (m : M G A) : Prop :=
  forall w, exists r w' evs,
    m w = (r, w') /\ r <> OutOfFuel /\ trace w' = trace w ++ evs /\ Forall P evs.

(** [m] always returns a value, and every call it makes satisfies [P]. *)
Definition returns {G : Type} (P : event -> Prop) {A : Type} (m : M G A) : Prop :=
  forall w, exists a w' evs,
    m w = (Ret a, w') /\ trace w' = trace w ++ evs /\ Forall P evs.

(** Every value that [m] can return satisfies [Q]. *)
Definition yields {G A : Type} (Q : A -> Prop) (m : M G A) : Prop :=
  forall w a w', m w = (Ret a, w') -> Q a.

(** Calls on the Tor control port or through the Tor proxy. *)
Definition is_tor_call (c : Startup.call) : bool :=
  match c with
  | Startup.TorConnect _ _ | Startup.TorAuthenticate _
  | Startup.TorCheck _ | Startup.TorClose => true
  | _ => false
  end.

(** ** Mocked collaborators *)

(** An outside world in which everything works and Tor is validated. *)
Definition friendly_outside : Startup.Outside :=
  Startup.mkOutside (fun _ => true) (fun _ => true)
                    (fun _ => Startup.Answer 200 true)
                    (fun _ => Some "TestAgent/1.0") (fun _ => true) (fun _ => true)
                    (fun _ => Some 200).

(** An outside world in which the Tor control port accepts the
    connection and refuses the authentication. *)
Definition locked_tor_outside : Startup.Outside :=
  Startup.mkOutside (fun _ => true) (fun _ => false)
                    (fun _ => Startup.Answer 200 true)
                    (fun _ => None) (fun _ => true) (fun _ => true)
                    (fun _ => None).

Definition video_element : Element := mkElement 0 (100, 100) (640, 360).

(** A page on which the video is found at once and nothing ever fails;
    the telemetry endpoint answers 201. *)
Definition calm_page : Collab :=
  mkCollab (fun _ _ => true) (fun _ _ => Located video_element)
           (fun _ _ => true) (fun _ => Some (0, 0)) (fun _ _ => Some [])
           (fun _ _ => true) (fun _ _ => true) (fun _ _ => true)
           (fun _ _ _ => Some 201) (fun tr => Z.of_nat (length tr)).

(** The same page with no video: every element lookup times out. *)
Definition blank_page : Collab :=
  mkCollab (fun _ _ => true) (fun _ _ => TimedOut)
           (fun _ _ => true) (fun _ => Some (0, 0)) (fun _ _ => Some [])
           (fun _ _ => true) (fun _ _ => true) (fun _ _ => true)
           (fun _ _ _ => Some 201) (fun tr => Z.of_nat (length tr)).

Definition fresh_world : World.t unit := World.mk tt [].

(** A page whose player sits in an iframe: the [video] selector times
    out, every other lookup finds the player. *)
Definition embedded_page : Collab :=
  mkCollab (fun _ _ => true)
           (fun _ sel => if String.eqb sel "video" then TimedOut
                         else Located video_element)
           (fun _ _ => true) (fun _ => Some (0, 0)) (fun _ _ => Some [])
           (fun _ _ => true) (fun _ _ => true) (fun _ _ => true)
           (fun _ _ _ => Some 201) (fun tr => Z.of_nat (length tr)).

(** A page on which the [video] selector times out and the next lookup
    fails with a driver error, while the later ones would succeed. *)
Definition crashing_page : Collab :=
  mkCollab (fun _ _ => true)
           (fun _ sel => if String.eqb sel "video" then TimedOut
                         else if String.eqb sel "#movie_player"
                              then Located video_element
                              else Broken)
           (fun _ _ => true) (fun _ => Some (0, 0)) (fun _ _ => Some [])
           (fun _ _ => true) (fun _ _ => true) (fun _ _ => true)
           (fun _ _ _ => Some 201) (fun tr => Z.of_nat (length tr)).

(** A browser that cannot load any page. *)
Definition offline_page : Collab :=
  mkCollab (fun _ _ => false) (fun _ _ => Located video_element)
           (fun _ _ => true) (fun _ => Some (0, 0)) (fun _ _ => Some [])
           (fun _ _ => true) (fun _ _ => true) (fun _ _ => true)
           (fun _ _ _ => Some 201) (fun tr => Z.of_nat (length tr)).


(** A driver that hands out no cookie and accepts only the cookie named
    [sid]. *)
Definition picky_driver : Cookies.Driver :=
  Cookies.mkDriver
    (fun _ => None)
    (fun _ c => match c !! "name" with
                | Some n => String.eqb n "sid"
                | None => false
                end).

(** An element 8 pixels wide. *)
Definition tiny_element : Element := mkElement 1 (0, 0) (8, 40).

(** A page with two safe buttons. *)
Definition button_a : Element := mkElement 2 (10, 10) (80, 30).
Definition button_b : Element := mkElement 3 (10, 60) (80, 30).

Definition button_page : Collab :=
  mkCollab (fun _ _ => true) (fun _ _ => Located video_element)
           (fun _ _ => true) (fun _ => Some (0, 0))
           (fun _ _ => Some [button_a; button_b])
           (fun _ _ => true) (fun _ _ => true) (fun _ _ => true)
           (fun _ _ _ => Some 201) (fun tr => Z.of_nat (length tr)).

(** The watcher for the command line [--url url --watch-time t --headless],
    initialized under [cfg]. *)
Definition watcher_for (cfg : Config.t) (url : string) (watch_time : option Z)
    : Main.VideoWatcher :=
  Main.initialized cfg
    (Main.init (Main.mkArgs (Some url) watch_time None true false)).

(* ===================================================================== *)
(** * Properties *)

(** ** Python values *)

Lemma Qltb_true (a b : Q) : Py.Qltb a b = true <-> (a < b)%Q.
Proof.
  unfold Py.Qltb. rewrite negb_true_iff.
  split; intro Hab.
  - apply Qnot_le_lt. intro Hle. apply Qle_bool_iff in Hle. congruence.
  - destruct (Qle_bool b a) eqn:E; [|reflexivity].
    apply Qle_bool_iff in E. exfalso. apply (Qlt_not_le _ _ Hab E).
Qed.

Lemma Qltb_false (a b : Q) : Py.Qltb a b = false <-> (b <= a)%Q.
Proof.
  unfold Py.Qltb. rewrite negb_false_iff. apply Qle_bool_iff.
Qed.

(** Truncation does not depend on the representation of the rational. *)
Lemma int_of_float_Qeq (x y : Q) : (x == y)%Q -> Py.int_of_float x = Py.int_of_float y.
Proof.
  destruct x as [a b], y as [c d]. unfold Qeq, Py.int_of_float. simpl. intro E.
  rewrite <- (Z.quot_mul_cancel_r a (Zpos b) (Zpos d)) by lia.
  rewrite E.
  rewrite (Z.mul_comm (Zpos b) (Zpos d)).
  apply Z.quot_mul_cancel_r; lia.
Qed.

#[global] Instance int_of_float_Proper : Proper (Qeq ==> eq) Py.int_of_float.
Proof. intros x y E. apply int_of_float_Qeq, E. Qed.





Lemma range_length (n : Z) : length (Py.range n) = Z.to_nat n.
Proof. unfold Py.range. now rewrite length_map, length_seq. Qed.

(** ** The Bezier motion generator *)

Section Bezier.
Variables p0 p1 p2 p3 : Z * Z.
Variable steps : Z.

Lemma bezier_loop (l : list Z) (acc : list (Z * Z)) :
  fold_left (Utils.bezier_step p0 p1 p2 p3 steps) l acc
  = acc ++ map (fun i => point_at p0 p1 p2 p3 (param steps i)) l.
Proof.
  revert acc. induction l as [|i l IH]; intro acc; cbn [fold_left map].
  - now rewrite app_nil_r.
  - rewrite IH. unfold Utils.bezier_step, point_at, param.
    now rewrite <- app_assoc.
Qed.

Lemma bezier_curve_map :
  Utils._generate_bezier_curve p0 p1 p2 p3 steps
  = map (fun i => point_at p0 p1 p2 p3 (param steps i)) (Py.range steps).
Proof. unfold Utils._generate_bezier_curve. now rewrite bezier_loop. Qed.









Lemma curve_length :
  length (Utils._generate_bezier_curve p0 p1 p2 p3 steps) = Z.to_nat steps.
Proof. now rewrite bezier_curve_map, length_map, range_length. Qed.

End Bezier.

(** C6: [_generate_bezier_curve] returns exactly [steps] points when
    [steps > 0], and the empty list when [steps = 0], whatever the four
    points are. *)
Theorem generate_path_length (p0 p1 p2 p3 : Z * Z) (steps : Z) :
  (0 < steps ->
   Z.of_nat (length (Utils._generate_bezier_curve p0 p1 p2 p3 steps)) = steps)
  /\ Utils._generate_bezier_curve p0 p1 p2 p3 0 = [].
Proof.
  split.
  - intro Hs. rewrite curve_length. lia.
  - reflexivity.
Qed.






(** ** The random source *)

#[global] Instance least_laws : RandomGenLaws unit.
Proof.
  split; simpl.
  - intros _. split; [apply Qle_refl | reflexivity].
  - intros a b _ Hab. exists a. rewrite (proj2 (Z.leb_le a b) Hab). split; [reflexivity | lia].
  - intros a b _ Hab. now rewrite (proj2 (Z.leb_gt a b) Hab).
  - intros n _ Hn. exact Hn.
Qed.

Lemma load_defaults :
  Config.load Config.decimal_int Config.decimal_float ∅ = Some default_config.
Proof. reflexivity. Qed.

(** ** The delay model and the action gate *)

Section Delay.
Context {G : Type} `{RandomGen G}.
Variable cfg : Config.t.

(** The delay is [lo + (hi - lo) * u] for the next unit draw [u], where
    [lo] and [hi] are the bounds after the [or] defaults. *)
Lemma generate_random_delay_run (min_delay max_delay : option Q) (w : World.t G) :
  Utils.generate_random_delay cfg min_delay max_delay w
  = (Ret (let lo := Py.or_default min_delay (Config.MIN_INTERACTION_DELAY cfg) in
          let hi := Py.or_default max_delay (Config.MAX_INTERACTION_DELAY cfg) in
          lo + (hi - lo) * fst (random (rng w)))%Q,
     World.mk (snd (random (rng w))) (trace w)).
Proof.
  unfold Utils.generate_random_delay, bind, draw, uniform, ret.
  destruct (random (rng w)) as [u g']. reflexivity.
Qed.

Lemma should_perform_action_run (p : Q) (w : World.t G) :
  Utils.should_perform_action p w
  = (Ret (Py.Qltb (fst (random (rng w))) p),
     World.mk (snd (random (rng w))) (trace w)).
Proof.
  unfold Utils.should_perform_action, bind, draw, ret.
  destruct (random (rng w)) as [u g']. reflexivity.
Qed.

Lemma or_default_nonzero (v d : Q) : ~ (v == 0)%Q -> Py.or_default (Some v) d = v.
Proof.
  intro Hv. unfold Py.or_default.
  destruct (Qeq_bool v 0) eqn:E; [|reflexivity].
  apply Qeq_bool_iff in E. contradiction.
Qed.

Lemma uniform_between (lo hi u : Q) :
  (lo <= hi)%Q -> (0 <= u)%Q -> (u < 1)%Q ->
  (lo <= lo + (hi - lo) * u /\ lo + (hi - lo) * u <= hi)%Q.
Proof. intros Hlh Hu0 Hu1. split; nra. Qed.

Context `{!RandomGenLaws G}.

(** With both bounds given and non-zero, the sample lies in
    [[min_delay, max_delay]]. *)
Lemma generate_random_delay_in_range (lo hi : Q) (w : World.t G) :
  (0 < lo)%Q -> (lo <= hi)%Q ->
  exists d w',
    Utils.generate_random_delay cfg (Some lo) (Some hi) w = (Ret d, w')
    /\ (lo <= d /\ d <= hi)%Q.
Proof.
  intros Hlo Hlh. rewrite generate_random_delay_run.
  do 2 eexists. split; [reflexivity|].
  rewrite !or_default_nonzero by (intro E; rewrite E in *; lra).
  destruct (random_unit (rng w)) as [Hu0 Hu1].
  cbv zeta. apply uniform_between; assumption.
Qed.

End Delay.

(** C9: the gate returns [true] iff the unit draw [u] is strictly less
    than [p]; with [u] in [0, 1) it never fires for [p = 0] and always
    fires for [p = 1]. *)
Theorem action_gate_fires_iff_draw_below
    {G : Type} `{RandomGen G} `{!RandomGenLaws G} (p : Q) (w : World.t G) :
  let u := fst (random (rng w)) in
  exists fired,
    fst (Utils.should_perform_action p w) = Ret fired
    /\ (fired = true <-> (u < p)%Q)
    /\ ((p == 0)%Q -> fired = false)
    /\ ((p == 1)%Q -> fired = true).
Proof.
  intro u. rewrite should_perform_action_run. simpl.
  exists (Py.Qltb u p). split; [reflexivity|].
  destruct (random_unit (rng w)) as [Hu0 Hu1]. fold u in Hu0, Hu1.
  split; [apply Qltb_true|]. split; intro Hp.
  - apply Qltb_false. rewrite Hp. exact Hu0.
  - apply Qltb_true. rewrite Hp. exact Hu1.
Qed.

Lemma action_gate_fires_iff_draw_below_witness :
  exists fired,
    fst (Utils.should_perform_action 1 (World.mk (G := unit) tt [])) = Ret fired
    /\ (fired = true <-> (0 < 1)%Q)
    /\ ((1 == 0)%Q -> fired = false)
    /\ ((1 == 1)%Q -> fired = true).
Proof.
  exact (action_gate_fires_iff_draw_below (G := unit) 1 (World.mk tt [])).
Defined.



(** C10: an explicit bound equal to 0 is treated exactly as an absent
    one, for [min_delay] and for [max_delay]: the configured default is
    used instead; and the sample can then lie outside the requested range
    (with the defaults, a request for [[0, 1]] returns 1.5 under the
    generator that draws 0). *)
Theorem zero_bound_replaced_by_default
    {G : Type} `{RandomGen G} (cfg : Config.t)
    (min_delay max_delay : option Q) (w : World.t G) :
  Utils.generate_random_delay cfg (Some 0%Q) max_delay w
  = Utils.generate_random_delay cfg None max_delay w
  /\ Utils.generate_random_delay cfg min_delay (Some 0%Q) w
     = Utils.generate_random_delay cfg min_delay None w
  /\ exists d,
       fst (Utils.generate_random_delay default_config (Some 0%Q) (Some 1%Q)
              (World.mk (G := unit) tt [])) = Ret d
       /\ ~ (0 <= d /\ d <= 1)%Q.
Proof.
  split; [reflexivity|]. split; [reflexivity|].
  exists (6 # 4)%Q. split; [vm_compute; reflexivity|].
  intros [_ Hd]. revert Hd. apply Qlt_not_le. reflexivity.
Qed.

(** ** Configuration loading *)

(** C3 fails as stated: the environment [bad_env] is not rejected; it
    loads, keeping the probability 1.5 and the delay range [[5.0, 1.5]]
    unchanged. *)
Lemma config_accepts_bad_values :
  Config.load Config.decimal_int Config.decimal_float bad_env = Some bad_config
  /\ (1 < Config.SCROLL_PROBABILITY bad_config)%Q
  /\ (Config.MAX_INTERACTION_DELAY bad_config
      < Config.MIN_INTERACTION_DELAY bad_config)%Q.
Proof. split; [vm_compute; reflexivity|]. split; reflexivity. Qed.

(** C3 (as the code has it): loading checks no range.  Whenever the
    numeric settings convert, the configuration loads, and its delay bounds
    and probabilities are exactly the converted values, whatever they
    are. *)
Theorem config_load_checks_no_range
    (int_of_string : string -> option Z) (float_of_string : string -> option Q)
    (env : gmap string string)
    (min_watch max_watch tor_port control_port width height ui_port : Z)
    (min_delay max_delay scroll_p click_p : Q) :
  int_of_string (Config.getenv env "MIN_WATCH_TIME" "30") = Some min_watch ->
  int_of_string (Config.getenv env "MAX_WATCH_TIME" "300") = Some max_watch ->
  float_of_string (Config.getenv env "MIN_INTERACTION_DELAY" "1.5") = Some min_delay ->
  float_of_string (Config.getenv env "MAX_INTERACTION_DELAY" "5.0") = Some max_delay ->
  float_of_string (Config.getenv env "SCROLL_PROBABILITY" "0.3") = Some scroll_p ->
  float_of_string (Config.getenv env "CLICK_PROBABILITY" "0.2") = Some click_p ->
  int_of_string (Config.getenv env "TOR_PROXY_PORT" "9050") = Some tor_port ->
  int_of_string (Config.getenv env "TOR_CONTROL_PORT" "9051") = Some control_port ->
  int_of_string (Config.getenv env "DEFAULT_WINDOW_WIDTH" "1920") = Some width ->
  int_of_string (Config.getenv env "DEFAULT_WINDOW_HEIGHT" "1080") = Some height ->
  int_of_string (Config.getenv env "UI_PORT" "8000") = Some ui_port ->
  exists c,
    Config.load int_of_string float_of_string env = Some c
    /\ Config.MIN_INTERACTION_DELAY c = min_delay
    /\ Config.MAX_INTERACTION_DELAY c = max_delay
    /\ Config.SCROLL_PROBABILITY c = scroll_p
    /\ Config.CLICK_PROBABILITY c = click_p.
Proof.
  intros E1 E2 E3 E4 E5 E6 E7 E8 E9 E10 E11. unfold Config.load.
  rewrite E1, E2, E3, E4, E5, E6, E7, E8, E9, E10, E11. simpl.
  eexists. split; [reflexivity|]. simpl. repeat split.
Qed.

Lemma config_load_checks_no_range_witness :
  exists c,
    Config.load Config.decimal_int Config.decimal_float bad_env = Some c
    /\ Config.MIN_INTERACTION_DELAY c = 5%Q
    /\ Config.MAX_INTERACTION_DELAY c = (3 # 2)%Q
    /\ Config.SCROLL_PROBABILITY c = (3 # 2)%Q
    /\ Config.CLICK_PROBABILITY c = (1 # 5)%Q.
Proof.
  apply (config_load_checks_no_range Config.decimal_int Config.decimal_float bad_env
           30 300 9050 9051 1920 1080 8000);
    vm_compute; reflexivity.
Defined.

(** ** Running computations *)

Lemma count_calls_app (p : event -> bool) (a b : list event) :
  count_calls p (a ++ b) = (count_calls p a + count_calls p b)%nat.
Proof. induction a as [|ev a IH]; simpl; [reflexivity | rewrite IH; lia]. Qed.

Lemma count_calls_none (p : event -> bool) (evs : list event) :
  Forall (fun ev => p ev = false) evs -> count_calls p evs = 0%nat.
Proof. induction 1 as [|ev evs Hev _ IH]; simpl; [reflexivity | now rewrite Hev, IH]. Qed.

Section Runs.
Context {G : Type} `{RandomGen G}.

Lemma bind_Ret {A B : Type} (m : M G A) (k : A -> M G B) (w w' : World.t G) (a : A) :
  m w = (Ret a, w') -> bind m k w = k a w'.
Proof. intro E. unfold bind. now rewrite E. Qed.

Lemma ok_or_raise_fuel (b : bool) (e : Py.exn) : ok_or_raise b e <> OutOfFuel.
Proof. now destruct b. Qed.

Lemma some_or_raise_fuel {A : Type} (o : option A) (e : Py.exn) :
  some_or_raise o e <> OutOfFuel.
Proof. now destruct o. Qed.

Section Emits.
Variable P : event -> Prop.

Lemma emits_ret {A : Type} (a : A) : emits (G := G) P (ret a).
Proof.
  intro w. exists (Ret a), w, []. rewrite app_nil_r.
  split; [reflexivity|]. split; [discriminate|]. split; [reflexivity | constructor].
Qed.

Lemma emits_raise {A : Type} (e : Py.exn) : emits (G := G) P (raise (A := A) e).
Proof.
  intro w. exists (Raise e), w, []. rewrite app_nil_r.
  split; [reflexivity|]. split; [discriminate|]. split; [reflexivity | constructor].
Qed.

Lemma emits_bind {A B : Type} (m : M G A) (k : A -> M G B) :
  emits P m -> (forall a, emits P (k a)) -> emits P (bind m k).
Proof.
  intros Hm Hk w. destruct (Hm w) as (r & w1 & e1 & E & Hr & Ht & Hf).
  unfold bind. rewrite E. destruct r as [a|e|].
  - destruct (Hk a w1) as (r2 & w2 & e2 & E2 & Hr2 & Ht2 & Hf2).
    exists r2, w2, (e1 ++ e2). rewrite E2, Ht2, Ht, app_assoc.
    split; [reflexivity|]. split; [exact Hr2|]. split; [reflexivity|].
    apply Forall_app; split; assumption.
  - exists (Raise e), w1, e1.
    split; [reflexivity|]. split; [discriminate|]. split; assumption.
  - contradiction.
Qed.

Lemma emits_try {A : Type} (m : M G A) (h : Py.exn -> M G A) :
  emits P m -> (forall e, emits P (h e)) -> emits P (try_except m h).
Proof.
  intros Hm Hh w. destruct (Hm w) as (r & w1 & e1 & E & Hr & Ht & Hf).
  unfold try_except. rewrite E. destruct r as [a|e|].
  - exists (Ret a), w1, e1.
    split; [reflexivity|]. split; [discriminate|]. split; assumption.
  - destruct (Hh e w1) as (r2 & w2 & e2 & E2 & Hr2 & Ht2 & Hf2).
    exists r2, w2, (e1 ++ e2). rewrite E2, Ht2, Ht, app_assoc.
    split; [reflexivity|]. split; [exact Hr2|]. split; [reflexivity|].
    apply Forall_app; split; assumption.
  - contradiction.
Qed.

Lemma emits_try_timeout {A : Type} (m h : M G A) :
  emits P m -> emits P h -> emits P (try_except_timeout m h).
Proof.
  intros Hm Hh w. destruct (Hm w) as (r & w1 & e1 & E & Hr & Ht & Hf).
  unfold try_except_timeout. rewrite E.
  assert (Hkeep : exists r' w' evs, (r, w1) = (r', w') /\ r' <> OutOfFuel
                    /\ trace w' = trace w ++ evs /\ Forall P evs).
  { exists r, w1, e1. split; [reflexivity|]. split; [exact Hr|]. split; assumption. }
  destruct r as [a|e|]; [exact Hkeep| |contradiction].
  destruct e; try exact Hkeep.
  destruct (Hh w1) as (r2 & w2 & e2 & E2 & Hr2 & Ht2 & Hf2).
  exists r2, w2, (e1 ++ e2). rewrite E2, Ht2, Ht, app_assoc.
  split; [reflexivity|]. split; [exact Hr2|]. split; [reflexivity|].
  apply Forall_app; split; assumption.
Qed.

Lemma emits_call {A : Type} (ev : event) (f : list event -> outcome A) :
  P ev -> (forall tr, f tr <> OutOfFuel) -> emits (G := G) P (call ev f).
Proof.
  intros Hev Hf w. exists (f (trace w)), (World.mk (rng w) (trace w ++ [ev])), [ev].
  split; [reflexivity|]. split; [apply Hf|]. split; [reflexivity|].
  constructor; [exact Hev | constructor].
Qed.

Lemma emits_draw {A : Type} (f : G -> A * G) : emits P (draw f).
Proof.
  intro w. unfold draw. destruct (f (rng w)) as [a g'].
  exists (Ret a), (World.mk g' (trace w)), []. simpl. rewrite app_nil_r.
  split; [reflexivity|]. split; [discriminate|]. split; [reflexivity | constructor].
Qed.

Lemma emits_randint (a b : Z) : emits P (Utils.py_randint a b).
Proof.
  intro w. unfold Utils.py_randint. destruct (randint a b (rng w)) as [r g'].
  exists (some_or_raise r Py.ValueError), (World.mk g' (trace w)), []. simpl.
  rewrite app_nil_r.
  split; [reflexivity|]. split; [apply some_or_raise_fuel|].
  split; [reflexivity | constructor].
Qed.

Lemma emits_now (co : Collab) : emits (G := G) P (Socionator.now co).
Proof.
  intro w. exists (Ret (clock co (trace w))), w, []. rewrite app_nil_r.
  split; [reflexivity|]. split; [discriminate|]. split; [reflexivity | constructor].
Qed.

(** A handler that returns a value turns every run into a return. *)
Lemma emits_caught {A : Type} (m : M G A) (x : A) :
  emits P m ->
  forall w, exists a w' evs,
    try_except m (fun _ => ret x) w = (Ret a, w')
    /\ trace w' = trace w ++ evs /\ Forall P evs.
Proof.
  intros Hm w. destruct (Hm w) as (r & w1 & e1 & E & Hr & Ht & Hf).
  unfold try_except. rewrite E. destruct r as [a|e|]; [| |contradiction].
  - exists a, w1, e1. split; [reflexivity|]. split; assumption.
  - exists x, w1, e1. split; [reflexivity|]. split; assumption.
Qed.

End Emits.

End Runs.

(** One step of a proof that a computation [emits]. *)
Ltac emits_step :=
  lazymatch goal with
  | |- emits _ (bind _ _) => apply emits_bind; [|intro]
  | |- emits _ (ret _) => apply emits_ret
  | |- emits _ (raise _) => apply emits_raise
  | |- emits _ (try_except _ _) => apply emits_try; [|intro]
  | |- emits _ (try_except_timeout _ _) => apply emits_try_timeout
  | |- emits _ (draw _) => apply emits_draw
  | |- emits _ (Utils.py_randint _ _) => apply emits_randint
  | |- emits _ (Socionator.now _) => apply emits_now
  | |- emits _ (call _ _) =>
      apply emits_call;
      [ try solve [ exact I
                  | match goal with
                    | HP : forall ev, benign ev -> _ |- _ => apply HP; exact I
                    end
                  | auto ]
      | intro; first [ apply ok_or_raise_fuel | apply some_or_raise_fuel ] ]
  | |- emits _ (if ?b then _ else _) => destruct b
  | |- emits _ (match ?x with _ => _ end) => destruct x
  end.

(** ** The pieces of a session, call by call *)

Section Pieces.
Context {G : Type} `{RandomGen G}.
Variable cfg : Config.t.
Variable co : Collab.
Variable P : event -> Prop.
Hypothesis HP : forall ev, benign ev -> P ev.

Lemma emits_sleep (d : Q) : emits P (Utils.sleep (G := G) d).
Proof. unfold Utils.sleep. emits_step. Qed.

Lemma emits_wait (lo hi : option Q) : emits P (Utils.wait_random_delay cfg lo hi).
Proof.
  unfold Utils.wait_random_delay, Utils.generate_random_delay.
  repeat emits_step. apply emits_sleep.
Qed.

Lemma emits_queue (points : list (Z * Z)) (actions : list action) :
  emits P (Utils.queue_moves points actions).
Proof.
  revert actions. induction points as [|point rest IH]; intro actions; simpl.
  - emits_step.
  - emits_step; [emits_step | apply IH].
Qed.

Lemma emits_mouse (a b : Z * Z) (steps : Z) :
  emits P (Utils.generate_human_like_mouse_movement co a b steps).
Proof.
  unfold Utils.generate_human_like_mouse_movement, Utils.control_points.
  emits_step; [repeat emits_step|].
  emits_step; [apply emits_queue|]. emits_step.
Qed.

Lemma emits_mouse_position : emits P (Automation._get_current_mouse_position (G := G) co).
Proof. unfold Automation._get_current_mouse_position. repeat emits_step. Qed.

Lemma emits_simulate_click (element : Element) :
  emits P (Automation._simulate_click cfg co element).
Proof.
  unfold Automation._simulate_click.
  emits_step; [|emits_step].
  emits_step; [emits_step|]. emits_step; [emits_step|].
  emits_step; [apply emits_mouse_position|].
  emits_step; [apply emits_mouse|].
  emits_step; [emits_step|].
  emits_step; [apply emits_wait | emits_step].
Qed.

Lemma emits_choice (seq : list Element) : emits P (Automation.py_choice (G := G) seq).
Proof. unfold Automation.py_choice. repeat emits_step. Qed.

End Pieces.

Lemma benign_non_scroll (ev : event) : benign ev -> non_scroll ev.
Proof. now destruct ev. Qed.

Lemma benign_counts (evs : list event) :
  Forall benign evs ->
  count_calls is_scroll evs = 0%nat /\ count_calls is_find evs = 0%nat
  /\ count_calls is_post evs = 0%nat.
Proof.
  intro Hf. repeat split; apply count_calls_none;
    (eapply Forall_impl; [exact Hf|]); intros ev Hev; now destruct ev.
Qed.

Section Loop.
Context {G : Type} `{RandomGen G} `{!RandomGenLaws G}.
Variable cfg : Config.t.
Variable co : Collab.

Lemma py_randint_run (a b n : Z) (w : World.t G) :
  fst (randint a b (rng w)) = Some n ->
  Utils.py_randint a b w = (Ret n, World.mk (snd (randint a b (rng w))) (trace w)).
Proof.
  unfold Utils.py_randint. destruct (randint a b (rng w)) as [r g']. simpl.
  now intros ->.
Qed.

(** A delay drawn between two positive bounds is slept without error. *)
Lemma wait_positive (lo hi : Q) (w : World.t G) :
  (0 < lo)%Q -> (lo <= hi)%Q ->
  exists d g',
    Utils.wait_random_delay cfg (Some lo) (Some hi) w
    = (Ret tt, World.mk g' (trace w ++ [Sleep d]))
    /\ (lo <= d /\ d <= hi)%Q.
Proof.
  intros Hlo Hlh. unfold Utils.wait_random_delay.
  rewrite (bind_Ret _ _ _ _ _ (generate_random_delay_run cfg (Some lo) (Some hi) w)).
  rewrite !or_default_nonzero by (intro E; rewrite E in *; lra).
  cbv zeta. destruct (random_unit (rng w)) as [Hu0 Hu1].
  destruct (uniform_between lo hi _ Hlh Hu0 Hu1) as [Hd1 Hd2].
  do 2 eexists. split; [|split; [exact Hd1 | exact Hd2]].
  unfold Utils.sleep, call. simpl.
  rewrite (proj2 (Qle_bool_iff 0 _)) by lra. reflexivity.
Qed.

Lemma returns_scroll :
  forall w, exists w' a rest,
    Automation._perform_random_scroll cfg co w = (Ret tt, w')
    /\ trace w' = trace w ++ ScrollBy a :: rest /\ Forall benign rest.
Proof.
  intro w. unfold Automation._perform_random_scroll, try_except.
  destruct (randint_in (-300) 300 (rng w)) as (a & Ea & _); [lia|].
  rewrite (bind_Ret _ _ _ _ _ (py_randint_run _ _ _ w Ea)).
  set (w1 := World.mk (snd (randint (-300) 300 (rng w))) (trace w)).
  unfold bind at 1, call at 1. cbn [trace rng w1].
  destruct (scroll_by_ok co (trace w) a); cbn [ok_or_raise].
  - match goal with |- context [Utils.wait_random_delay cfg None None ?w2] =>
      destruct (emits_wait cfg benign (fun _ Hb => Hb) None None w2)
        as (r & w3 & evs & E & Hr & Ht & Hf)
    end.
    rewrite E. cbn [trace] in Ht.
    exists w3, a, evs. rewrite Ht, <- app_assoc.
    split; [|split; [reflexivity | exact Hf]].
    destruct r as [[]|e|]; [reflexivity | reflexivity | contradiction].
  - eexists _, a, []. cbn [ret trace]. split; [reflexivity|].
    split; [reflexivity | constructor].
Qed.

Lemma returns_click :
  returns non_scroll (Automation._perform_random_click cfg co).
Proof.
  unfold Automation._perform_random_click. intro w. apply emits_caught.
  emits_step; [emits_step|].
  emits_step; [emits_step|].
  emits_step; [apply emits_choice|].
  emits_step; [|emits_step].
  apply emits_simulate_click, benign_non_scroll.
Qed.

(** One iteration of the interaction loop: the two gate draws [u1] and
    [u2], the tick draw [r] in [[5, 15]], and the calls made; the loop
    continues from [start_time + min(r, watch_time - start_time)]. *)
Lemma watch_tick (fuel : nat) (watch_time start_time : Z) (w : World.t G) :
  start_time < watch_time ->
  exists u1 u2 r g es ec d w1,
    (0 <= u1 /\ u1 < 1)%Q /\ (0 <= u2 /\ u2 < 1)%Q
    /\ fst (randint 5 15 g) = Some r /\ 5 <= r <= 15
    /\ Automation.watch_loop cfg co (S fuel) watch_time start_time w
       = Automation.watch_loop cfg co fuel watch_time
           (start_time + Z.min r (watch_time - start_time)) w1
    /\ trace w1 = trace w ++ es ++ ec ++ [Sleep d]
    /\ (if Py.Qltb u1 (Config.SCROLL_PROBABILITY cfg)
        then exists a rest, es = ScrollBy a :: rest /\ Forall benign rest
        else es = [])
    /\ (if Py.Qltb u2 (Config.CLICK_PROBABILITY cfg)
        then Forall non_scroll ec
        else ec = []).
Proof.
  intro Hlt. cbn [Automation.watch_loop].
  rewrite (proj2 (Z.ltb_lt _ _) Hlt).
  (* scroll gate *)
  rewrite (bind_Ret _ _ _ _ _ (should_perform_action_run _ w)).
  set (u1 := fst (random (rng w))).
  set (w1 := World.mk (snd (random (rng w))) (trace w)).
  assert (Hs : exists w2 es,
             (if Py.Qltb u1 (Config.SCROLL_PROBABILITY cfg)
              then Automation._perform_random_scroll cfg co else ret tt) w1
             = (Ret tt, w2)
             /\ trace w2 = trace w ++ es
             /\ (if Py.Qltb u1 (Config.SCROLL_PROBABILITY cfg)
                 then exists a rest, es = ScrollBy a :: rest /\ Forall benign rest
                 else es = [])).
  { destruct (Py.Qltb u1 (Config.SCROLL_PROBABILITY cfg)).
    - destruct (returns_scroll w1) as (w2 & a & rest & E & Ht & Hf).
      exists w2, (ScrollBy a :: rest). split; [exact E|]. split; [exact Ht|].
      exists a, rest. split; [reflexivity | exact Hf].
    - exists w1, []. split; [reflexivity|]. split; [|reflexivity].
      cbn [trace w1]. now rewrite app_nil_r. }
  destruct Hs as (w2 & es & Es & Hts & Hes).
  rewrite (bind_Ret _ _ _ _ _ Es).
  (* click gate *)
  rewrite (bind_Ret _ _ _ _ _ (should_perform_action_run _ w2)).
  set (u2 := fst (random (rng w2))).
  set (w3 := World.mk (snd (random (rng w2))) (trace w2)).
  assert (Hc : exists w4 ec,
             (if Py.Qltb u2 (Config.CLICK_PROBABILITY cfg)
              then Automation._perform_random_click cfg co else ret tt) w3
             = (Ret tt, w4)
             /\ trace w4 = trace w2 ++ ec
             /\ (if Py.Qltb u2 (Config.CLICK_PROBABILITY cfg)
                 then Forall non_scroll ec
                 else ec = [])).
  { destruct (Py.Qltb u2 (Config.CLICK_PROBABILITY cfg)).
    - destruct (returns_click w3) as ([] & w4 & ec & E & Ht & Hf).
      exists w4, ec. split; [exact E|]. split; [exact Ht | exact Hf].
    - exists w3, []. split; [reflexivity|]. split; [|reflexivity].
      cbn [trace w3]. now rewrite app_nil_r. }
  destruct Hc as (w4 & ec & Ec & Htc & Hec).
  rewrite (bind_Ret _ _ _ _ _ Ec).
  (* tick interval *)
  destruct (randint_in 5 15 (rng w4)) as (r & Er & Hr); [lia|].
  rewrite (bind_Ret _ _ _ _ _ (py_randint_run _ _ _ w4 Er)).
  set (w5 := World.mk (snd (randint 5 15 (rng w4))) (trace w4)).
  cbv zeta.
  set (interval := Z.min r (watch_time - start_time)).
  assert (Hi : 1 <= interval) by (unfold interval; lia).
  destruct (wait_positive (inject_Z interval) (inject_Z (interval + 2)) w5)
    as (d & g' & Ew & _).
  { rewrite <- (Zlt_Qlt 0). lia. }
  { rewrite <- Zle_Qle. lia. }
  rewrite (bind_Ret _ _ _ _ _ Ew).
  exists u1, u2, r, (rng w4), es, ec, d, (World.mk g' (trace w5 ++ [Sleep d])).
  split; [apply random_unit|]. split; [apply random_unit|].
  split; [exact Er|]. split; [exact Hr|]. split; [reflexivity|].
  split; [|split; assumption].
  cbn [trace w5]. rewrite Htc, Hts, <- !app_assoc. reflexivity.
Qed.

(** From any point not past the target, a budget of one iteration per
    remaining second is enough, and the loop returns exactly the target. *)
Lemma watch_loop_reaches_target (fuel : nat) :
  forall (watch_time start_time : Z) (w : World.t G),
    0 <= start_time <= watch_time ->
    watch_time - start_time <= Z.of_nat fuel ->
    exists w', Automation.watch_loop cfg co fuel watch_time start_time w
               = (Ret watch_time, w').
Proof.
  induction fuel as [|fuel IH]; intros watch_time start_time w Hst Hf.
  - assert (start_time = watch_time) as -> by lia.
    exists w. cbn [Automation.watch_loop]. now rewrite Z.ltb_irrefl.
  - destruct (Z.eq_dec start_time watch_time) as [->|Hne].
    + exists w. cbn [Automation.watch_loop]. now rewrite Z.ltb_irrefl.
    + destruct (watch_tick fuel watch_time start_time w)
        as (u1 & u2 & r & g & es & ec & d & w1 & _ & _ & _ & Hr & E & _); [lia|].
      rewrite E. apply IH; lia.
Qed.

End Loop.

(** ** The pointer movement *)

Section Movement.
Context {G : Type} `{RandomGen G} `{!RandomGenLaws G}.
Variable co : Collab.

(** Queueing keeps what is queued and adds one move per point. *)
Lemma queue_moves_run (points : list (Z * Z)) :
  forall (actions : list action) (w : World.t G),
    exists added g',
      Utils.queue_moves points actions w
      = (Ret (actions ++ added), World.mk g' (trace w))
      /\ moves_of added = points.
Proof.
  induction points as [|[x y] rest IH]; intros actions w.
  - exists [], (rng w). rewrite app_nil_r. destruct w. split; reflexivity.
  - cbn [Utils.queue_moves]. unfold bind at 1, draw, uniform.
    destruct (random (rng w)) as [u g1]. cbn [fst snd].
    match goal with |- context [Utils.queue_moves rest ?acc ?w1] =>
      destruct (IH acc w1) as (added & g' & E & Hm)
    end.
    rewrite E. cbn [trace].
    eexists (_ :: _ :: added), g'. rewrite <- app_assoc. split; [reflexivity|].
    cbn [moves_of]. now rewrite Hm.
Qed.

(** Both control points are drawn within the jitter range of their
    anchor, without any call on the collaborators. *)
Lemma control_points_run (start_coords end_coords : Z * Z) (w : World.t G) :
  exists cp1 cp2 g',
    Utils.control_points start_coords end_coords w
    = (Ret (cp1, cp2), World.mk g' (trace w))
    /\ within_jitter start_coords cp1 /\ within_jitter end_coords cp2.
Proof.
  unfold Utils.control_points.
  destruct (randint_in (-100) 100 (rng w)) as (dx1 & E1 & H1); [lia|].
  rewrite (bind_Ret _ _ _ _ _ (py_randint_run _ _ _ w E1)).
  match goal with |- context [bind (Utils.py_randint _ _) _ ?w1] =>
    destruct (randint_in (-100) 100 (rng w1)) as (dy1 & E2 & H2); [lia|];
    rewrite (bind_Ret _ _ _ _ _ (py_randint_run _ _ _ w1 E2))
  end.
  cbv zeta.
  match goal with |- context [bind (Utils.py_randint _ _) _ ?w1] =>
    destruct (randint_in (-100) 100 (rng w1)) as (dx2 & E3 & H3); [lia|];
    rewrite (bind_Ret _ _ _ _ _ (py_randint_run _ _ _ w1 E3))
  end.
  match goal with |- context [bind (Utils.py_randint _ _) _ ?w1] =>
    destruct (randint_in (-100) 100 (rng w1)) as (dy2 & E4 & H4); [lia|];
    rewrite (bind_Ret _ _ _ _ _ (py_randint_run _ _ _ w1 E4))
  end.
  cbn [ret trace]. eexists _, _, _. split; [reflexivity|].
  unfold within_jitter. cbn [fst snd]. split; split; lia.
Qed.

(** The pointer is moved through the points of the Bezier curve between
    the given ends, for control points drawn within the jitter range, by
    one [perform] call. *)
Lemma mouse_movement_follows_curve (start_coords end_coords : Z * Z) (steps : Z)
    (w : World.t G) :
  exists cp1 cp2 chain r g',
    Utils.generate_human_like_mouse_movement co start_coords end_coords steps w
    = (r, World.mk g' (trace w ++ [Perform chain]))
    /\ within_jitter start_coords cp1 /\ within_jitter end_coords cp2
    /\ moves_of chain
       = Utils._generate_bezier_curve start_coords cp1 cp2 end_coords steps.
Proof.
  unfold Utils.generate_human_like_mouse_movement.
  destruct (control_points_run start_coords end_coords w)
    as (cp1 & cp2 & g1 & E1 & Hj1 & Hj2).
  rewrite (bind_Ret _ _ _ _ _ E1). cbv zeta. cbn [fst snd].
  match goal with |- context [bind (Utils.queue_moves ?pts ?acc) _ ?w1] =>
    destruct (queue_moves_run pts acc w1) as (chain & g2 & E2 & Hm)
  end.
  rewrite (bind_Ret _ _ _ _ _ E2). cbn [app trace].
  unfold call. cbn [trace rng].
  eexists cp1, cp2, chain, _, g2. split; [reflexivity|].
  split; [exact Hj1|]. split; [exact Hj2 | exact Hm].
Qed.

End Movement.

(** ** The interaction loop *)

(** C8 (as the code has it): each tick advances [start_time] by
    [min(r, watch_time - start_time)] for a draw [r] from [[5, 15]]; for a
    requested duration that is not negative the loop terminates normally
    (within one iteration per second) with elapsed time equal to the
    requested duration, hence not above it. *)
Theorem elapsed_reaches_requested_duration
    {G : Type} `{RandomGen G} `{!RandomGenLaws G}
    (cfg : Config.t) (co : Collab) (watch_time : Z) (w : World.t G) :
  0 <= watch_time ->
  (forall fuel start_time w0, start_time < watch_time ->
     exists r w1,
       5 <= r <= 15
       /\ Automation.watch_loop cfg co (S fuel) watch_time start_time w0
          = Automation.watch_loop cfg co fuel watch_time
              (start_time + Z.min r (watch_time - start_time)) w1)
  /\ exists elapsed w',
       Automation.watch_loop cfg co (Z.to_nat watch_time) watch_time 0 w
       = (Ret elapsed, w')
       /\ elapsed = watch_time /\ elapsed <= watch_time.
Proof.
  intro Hwt. split.
  - intros fuel start_time w0 Hlt.
    destruct (watch_tick cfg co fuel watch_time start_time w0 Hlt)
      as (u1 & u2 & r & g & es & ec & d & w1 & _ & _ & _ & Hr & E & _).
    exists r, w1. split; [exact Hr | exact E].
  - destruct (watch_loop_reaches_target cfg co (Z.to_nat watch_time) watch_time 0 w)
      as (w' & E); [lia | lia |].
    exists watch_time, w'. split; [exact E|]. split; [reflexivity | lia].
Qed.

Lemma elapsed_reaches_requested_duration_witness :
  exists elapsed w',
    Automation.watch_loop default_config calm_page (Z.to_nat 20) 20 0 fresh_world
    = (Ret elapsed, w')
    /\ elapsed = 20 /\ elapsed <= 20.
Proof.
  apply (elapsed_reaches_requested_duration default_config calm_page 20 fresh_world).
  lia.
Defined.

(** C8 fails as stated for a negative requested duration: with
    [watch_time = -5] the session completes normally, the loop body never
    runs, and the elapsed time 0 exceeds the requested duration. *)
Lemma negative_duration_is_exceeded :
  fst (Automation.simulate_video_watching default_config calm_page 0
         "https://example.com/v1" (Some (-5)) fresh_world) = Ret true
  /\ (forall w : World.t unit,
        Automation.watch_loop default_config calm_page 0 (-5) 0 w = (Ret 0, w))
  /\ ~ (0 <= -5).
Proof.
  split; [vm_compute; reflexivity|]. split; [reflexivity | lia].
Qed.

(** ** The session sequencer *)

Lemma off_page_counts (evs : list event) :
  Forall off_page evs ->
  count_calls is_scroll evs = 0%nat /\ count_calls is_find evs = 0%nat.
Proof.
  intro Hf. split; apply count_calls_none;
    (eapply Forall_impl; [exact Hf|]); intros ev [Hs Hd]; assumption.
Qed.

Section Session.
Context {G : Type} `{RandomGen G}.
Variable cfg : Config.t.
Variable co : Collab.

(** With an API key, an engagement event is posted exactly once, stamped
    with the clock, whatever the endpoint answers. *)
Lemma send_engagement_event_run (api : Socionator.SocionatorAPI)
    (event_type video_url : string) (metadata : gmap string string) (w : World.t G) :
  Py.truthy (Socionator.api_key api) = true ->
  exists sent,
    Socionator.send_engagement_event co api event_type video_url metadata w
    = (Ret sent,
       World.mk (rng w)
         (trace w ++ [HttpPost (String.append (Socionator.api_endpoint api) "/events")
                        (EventPayload event_type video_url (clock co (trace w)) metadata)])).
Proof.
  intro Hk. unfold Socionator.send_engagement_event. rewrite Hk. cbn [negb].
  unfold try_except, bind, Socionator.now, Socionator.post, call. cbn [trace rng].
  destruct (http_post co (trace w) _ _) as [status|]; cbn [some_or_raise].
  - destruct (status =? 201); eexists; reflexivity.
  - eexists; reflexivity.
Qed.

Lemma returns_send_engagement_event (api : Socionator.SocionatorAPI)
    (event_type video_url : string) (metadata : gmap string string) :
  returns off_page
    (Socionator.send_engagement_event (G := G) co api event_type video_url metadata).
Proof.
  intro w. unfold Socionator.send_engagement_event.
  destruct (negb (Py.truthy (Socionator.api_key api))).
  - exists false, w, []. rewrite app_nil_r.
    split; [reflexivity|]. split; [reflexivity | constructor].
  - apply emits_caught.
    emits_step; [emits_step|].
    emits_step; [|emits_step; emits_step].
    unfold Socionator.post. apply emits_call; [split; reflexivity|].
    intro tr. apply some_or_raise_fuel.
Qed.

Lemma send_watch_session_run (api : Socionator.SocionatorAPI) (video_url : string)
    (watch_time : Z) (interactions : gmap string Z) (proxy_used : option string)
    (w : World.t G) :
  exists sent,
    Socionator.send_watch_session co api video_url watch_time interactions proxy_used w
    = (Ret sent,
       World.mk (rng w)
         (trace w ++ [HttpPost (String.append (Socionator.api_endpoint api) "/sessions")
                        (SessionPayload video_url watch_time interactions proxy_used
                                        (clock co (trace w)))])).
Proof.
  unfold Socionator.send_watch_session.
  unfold try_except, bind, Socionator.now, Socionator.post, call. cbn [trace rng].
  destruct (http_post co (trace w) _ _) as [status|]; cbn [some_or_raise].
  - destruct (status =? 201); eexists; reflexivity.
  - eexists; reflexivity.
Qed.

(** The first selector that is present wins. *)
Lemma find_video_first (e : Element) (w : World.t G) :
  wait_until co (trace w) "video" = Located e ->
  Automation._find_video_element co w
  = (Ret (Some e), World.mk (rng w) (trace w ++ [WaitUntilPresent "video"])).
Proof.
  intro Hv. unfold Automation._find_video_element, try_except, Automation.selectors.
  cbn [Automation.try_selectors]. unfold try_except_timeout, bind at 1.
  unfold Automation.wait_for, call. rewrite Hv. reflexivity.
Qed.

(** When every selector times out, all of them are tried in order and no
    element is returned. *)
Lemma try_selectors_exhausted (sels : list string) (w : World.t G) :
  (forall tr sel, In sel sels -> wait_until co tr sel = TimedOut) ->
  Automation.try_selectors co sels w
  = (Ret None, World.mk (rng w) (trace w ++ map WaitUntilPresent sels)).
Proof.
  revert w. induction sels as [|sel rest IH]; intros w Hto.
  - cbn. rewrite app_nil_r. now destruct w.
  - cbn [Automation.try_selectors map].
    unfold try_except_timeout, bind, Automation.wait_for, call.
    rewrite (Hto (trace w) sel) by (left; reflexivity).
    rewrite IH by (intros tr s Hs; apply Hto; right; exact Hs).
    cbn [rng trace]. now rewrite <- app_assoc.
Qed.

Lemma find_video_exhausted (w : World.t G) :
  (forall tr sel, In sel Automation.selectors -> wait_until co tr sel = TimedOut) ->
  Automation._find_video_element co w
  = (Ret None,
     World.mk (rng w) (trace w ++ map WaitUntilPresent Automation.selectors)).
Proof.
  intro Hto. unfold Automation._find_video_element, try_except.
  now rewrite try_selectors_exhausted.
Qed.

Lemma returns_navigate (url : string) :
  returns benign (Automation.navigate_to_url cfg co url).
Proof.
  intro w. unfold Automation.navigate_to_url. apply emits_caught.
  emits_step; [emits_step|].
  emits_step; [apply emits_wait; auto | emits_step].
Qed.

Lemma returns_ensure (e : Element) :
  returns benign (Automation._ensure_video_playing cfg co e).
Proof.
  intro w. unfold Automation._ensure_video_playing. apply emits_caught.
  emits_step; [apply emits_simulate_click; auto|].
  emits_step; [apply emits_wait; auto|].
  emits_step; [emits_step|].
  emits_step; [apply emits_wait; auto | emits_step].
Qed.

(** Without a video element the simulation reports failure, making only
    benign calls. *)
Lemma simulation_fails_without_video (fuel : nat) (url : string)
    (watch_time : option Z) (w : World.t G) :
  (forall tr sel, In sel Automation.selectors -> wait_until co tr sel = TimedOut) ->
  exists w' evs,
    Automation.simulate_video_watching cfg co fuel url watch_time w = (Ret false, w')
    /\ trace w' = trace w ++ evs /\ Forall benign evs.
Proof.
  intro Hto. unfold Automation.simulate_video_watching, try_except.
  destruct (returns_navigate url w) as (navigated & w1 & e1 & E1 & Ht1 & Hf1).
  rewrite (bind_Ret _ _ _ _ _ E1).
  destruct navigated; cbn [negb].
  - rewrite (bind_Ret _ _ _ _ _ (find_video_exhausted w1 Hto)).
    eexists _, _. split; [reflexivity|]. cbn [trace]. rewrite Ht1, <- app_assoc.
    split; [reflexivity|].
    apply Forall_app. split; [exact Hf1|].
    apply Forall_forall. intros ev Hev. apply list_elem_of_In, in_map_iff in Hev.
    destruct Hev as (s & <- & _). exact I.
  - exists w1, e1. split; [reflexivity|]. split; assumption.
Qed.

End Session.

Lemma benign_no_session_error (reason : string) (evs : list event) :
  Forall benign evs -> Forall (fun ev => session_error_with reason ev = false) evs.
Proof.
  intro Hf. eapply Forall_impl; [exact Hf|]. intros ev Hev. now destruct ev.
Qed.

Lemma benign_post_free (evs : list event) :
  Forall benign evs -> count_calls is_post evs = 0%nat.
Proof. intro Hf. apply (benign_counts evs Hf). Qed.

(** C2 (as the code has it): when every selector times out, [run_session]
    returns [False]; the result carries no reason.  With a telemetry client
    holding an API key, the last call of the session posts a
    [session_error] event whose error is ["Simulation failed"]; without a
    client nothing is posted.  No event carries ["video_not_found"]. *)
Theorem session_without_video_reports_simulation_failed
    {G : Type} `{RandomGen G} (cfg : Config.t) (co : Collab) (fuel : nat)
    (self : Main.VideoWatcher) (w : World.t G) :
  let video_url :=
    Py.str_or (default "" (Main.url (Main.args self))) (Config.TARGET_VIDEO_URL cfg) in
  (forall tr sel, In sel Automation.selectors -> wait_until co tr sel = TimedOut) ->
  Py.truthy video_url = true ->
  exists self' w' evs,
    Main.run_session cfg co fuel self w = (Ret (false, self'), w')
    /\ trace w' = trace w ++ evs
    /\ Forall (fun ev => session_error_with "video_not_found" ev = false) evs
    /\ match Main.socionator self with
       | Some api =>
           Py.truthy (Socionator.api_key api) = true ->
           exists front timestamp,
             evs = front ++
                   [HttpPost (String.append (Socionator.api_endpoint api) "/events")
                      (EventPayload "session_error" video_url timestamp
                                    (<["error" := "Simulation failed"]> ∅))]
       | None => count_calls is_post evs = 0%nat
       end.
Proof.
  intros video_url Hto Hurl. unfold Main.run_session.
  rewrite (bind_Ret _ _ _ _ _ (eq_refl : Socionator.now co w = (Ret _, w))).
  cbv beta zeta.
  set (self' := Main.set_start_time self (clock co (trace w))).
  change (Main.args self') with (Main.args self).
  change (Main.socionator self') with (Main.socionator self).
  change (Main.tor_manager self') with (Main.tor_manager self).
  fold video_url. unfold try_except. rewrite Hurl. cbn [negb].
  unfold Main._report_session_error.
  change (Main.socionator self') with (Main.socionator self).
  destruct (Main.socionator self) as [api|].
  - destruct (Py.truthy (Socionator.api_key api)) eqn:Hk.
    + (* client with a key: start event, simulation, error event *)
      destruct (send_engagement_event_run co api "session_start" video_url
                  (<["proxy_type" := if Main.tor_manager self then "tor" else "custom"]> ∅)
                  w Hk) as (sent & Es).
      rewrite (bind_Ret _ _ _ _ _ (bind_Ret _ _ _ _ _ Es)).
      cbn [ret].
      match goal with
      |- context [bind (Automation.simulate_video_watching _ _ _ _ _) _ ?w1] =>
        destruct (simulation_fails_without_video cfg co fuel video_url
                    (Main.watch_time (Main.args self)) w1 Hto)
          as (w2 & evs & E2 & Ht2 & Hf2)
      end.
      rewrite (bind_Ret _ _ _ _ _ E2).
      destruct (send_engagement_event_run co api "session_error" video_url
                  (<["error" := "Simulation failed"]> ∅) w2 Hk) as (sent' & Ee).
      rewrite (bind_Ret _ _ _ _ _ (bind_Ret _ _ _ _ _ Ee)).
      eexists self', _, _. split; [reflexivity|].
      cbn [trace ret] in *. rewrite Ht2, <- !app_assoc.
      split; [reflexivity|]. split.
      * constructor; [reflexivity|].
        apply Forall_app. split; [apply benign_no_session_error, Hf2|].
        constructor; [reflexivity | constructor].
      * intros _. eexists (_ :: evs), _. reflexivity.
    + (* client without a key: nothing is posted *)
      assert (Hsilent : forall ty md (w0 : World.t G),
                 Socionator.send_engagement_event co api ty video_url md w0
                 = (Ret false, w0)).
      { intros ty md w0. unfold Socionator.send_engagement_event. now rewrite Hk. }
      rewrite (bind_Ret _ _ _ _ _ (bind_Ret _ _ _ _ _ (Hsilent _ _ _))).
      cbn [ret].
      destruct (simulation_fails_without_video cfg co fuel video_url
                  (Main.watch_time (Main.args self)) w Hto)
        as (w2 & evs & E2 & Ht2 & Hf2).
      rewrite (bind_Ret _ _ _ _ _ E2).
      rewrite (bind_Ret _ _ _ _ _ (bind_Ret _ _ _ _ _ (Hsilent _ _ _))).
      exists self', w2, evs. split; [reflexivity|]. split; [exact Ht2|].
      split; [apply benign_no_session_error, Hf2 | discriminate].
  - cbn [bind ret].
    destruct (simulation_fails_without_video cfg co fuel video_url
                (Main.watch_time (Main.args self)) w Hto)
      as (w2 & evs & E2 & Ht2 & Hf2).
    unfold bind, ret. rewrite E2.
    exists self', w2, evs. split; [reflexivity|]. split; [exact Ht2|].
    split; [apply benign_no_session_error, Hf2 | apply benign_post_free, Hf2].
Qed.

Lemma session_without_video_reports_simulation_failed_witness :
  exists self' w' evs,
    Main.run_session telemetry_config blank_page 0
      (watcher_for telemetry_config "https://example.com/v1" None) fresh_world
    = (Ret (false, self'), w')
    /\ trace w' = trace fresh_world ++ evs
    /\ Forall (fun ev => session_error_with "video_not_found" ev = false) evs
    /\ (Py.truthy "secret" = true ->
        exists front timestamp,
          evs = front ++
                [HttpPost "https://api.socionator.com/v1/events"
                   (EventPayload "session_error" "https://example.com/v1" timestamp
                                 (<["error" := "Simulation failed"]> ∅))]).
Proof.
  apply (session_without_video_reports_simulation_failed telemetry_config blank_page 0
           (watcher_for telemetry_config "https://example.com/v1" None) fresh_world).
  - intros tr sel _. reflexivity.
  - reflexivity.
Defined.

(** C2 fails as stated: on a page where every lookup times out, with a
    telemetry client configured, the session returns [False] but no event
    carries ["video_not_found"]; the [session_error] event that is sent
    carries ["Simulation failed"]. *)
Lemma no_video_not_found_reason :
  exists self' w',
    Main.run_session telemetry_config blank_page 0
      (watcher_for telemetry_config "https://example.com/v1" None) fresh_world
    = (Ret (false, self'), w')
    /\ existsb (session_error_with "video_not_found") (trace w') = false
    /\ existsb (session_error_with "Simulation failed") (trace w') = true.
Proof.
  eexists _, _. split; [vm_compute; reflexivity|]. split; vm_compute; reflexivity.
Qed.

(** ** Scenario: every tick scrolls, none clicks, ticks last 5 seconds *)

Section Scenario.
Context {G : Type} `{RandomGen G} `{!RandomGenLaws G}.
Variable cfg : Config.t.
Variable co : Collab.
Hypothesis scroll_always : (Config.SCROLL_PROBABILITY cfg == 1)%Q.
Hypothesis click_never : (Config.CLICK_PROBABILITY cfg == 0)%Q.
Hypothesis tick_fixed : forall g, fst (randint 5 15 g) = Some 5.

(** The loop runs one tick per started 5 seconds; each tick makes exactly
    one scroll call and never looks for safe elements. *)
Lemma scenario_loop (n : nat) :
  forall (watch_time start_time : Z) (w : World.t G),
    start_time <= watch_time ->
    watch_time - start_time <= 5 * Z.of_nat n ->
    5 * Z.of_nat n < watch_time - start_time + 5 ->
    exists w' evs,
      Automation.watch_loop cfg co n watch_time start_time w = (Ret watch_time, w')
      /\ trace w' = trace w ++ evs
      /\ count_calls is_scroll evs = n
      /\ count_calls is_find evs = 0%nat
      /\ count_calls is_post evs = 0%nat.
Proof.
  induction n as [|n IH]; intros watch_time start_time w Hle Hup Hlo.
  - assert (start_time = watch_time) as -> by lia.
    exists w, []. cbn [Automation.watch_loop]. rewrite Z.ltb_irrefl, app_nil_r.
    repeat split.
  - destruct (watch_tick cfg co n watch_time start_time w)
      as (u1 & u2 & r & g & es & ec & d & w1
          & [_ Hu1] & [Hu2 _] & Er & _ & E & Ht & Hes & Hec); [lia|].
    rewrite tick_fixed in Er. injection Er as <-.
    rewrite (proj2 (Qltb_true u1 _)) in Hes by (rewrite scroll_always; exact Hu1).
    rewrite (proj2 (Qltb_false u2 _)) in Hec by (rewrite click_never; exact Hu2).
    destruct Hes as (a & rest & -> & Hrest). subst ec.
    destruct (IH watch_time (start_time + Z.min 5 (watch_time - start_time)) w1)
      as (w' & evs & E' & Ht' & Hs & Hf & Hp); [lia | lia | lia |].
    rewrite E, E'. exists w', ((ScrollBy a :: rest) ++ [] ++ [Sleep d] ++ evs).
    split; [reflexivity|].
    split; [rewrite Ht', Ht, <- !app_assoc; reflexivity|].
    destruct (benign_counts rest Hrest) as (Hr1 & Hr2 & Hr3).
    rewrite !count_calls_app. cbn [count_calls is_scroll is_find is_post].
    rewrite Hr1, Hr2, Hr3, Hs, Hf, Hp. repeat split; lia.
Qed.

(** Navigation that the browser accepts succeeds. *)
Lemma navigate_succeeds (url : string) (w : World.t G) :
  driver_get_ok co (trace w) url = true ->
  exists d g',
    Automation.navigate_to_url cfg co url w
    = (Ret true, World.mk g' (trace w ++ [DriverGet url; Sleep d])).
Proof.
  intro Hok. unfold Automation.navigate_to_url, try_except.
  unfold bind at 1, call at 1. rewrite Hok. cbn [ok_or_raise rng trace].
  match goal with |- context [bind (Utils.wait_random_delay _ _ _) _ ?w1] =>
    destruct (wait_positive cfg 2 4 w1) as (d & g' & Ew & _); [reflexivity | discriminate |]
  end.
  rewrite (bind_Ret _ _ _ _ _ Ew). cbn [ret trace].
  exists d, g'. rewrite <- app_assoc. reflexivity.
Qed.

(** The whole simulation in the scenario: [ceil(watch_time / 5)] ticks. *)
Lemma scenario_simulation (n : nat) (url : string) (watch_time : Z)
    (e : Element) (w : World.t G) :
  0 <= watch_time ->
  watch_time <= 5 * Z.of_nat n -> 5 * Z.of_nat n < watch_time + 5 ->
  (forall tr, driver_get_ok co tr url = true) ->
  (forall tr, wait_until co tr "video" = Located e) ->
  exists w' evs,
    Automation.simulate_video_watching cfg co n url (Some watch_time) w = (Ret true, w')
    /\ trace w' = trace w ++ evs
    /\ count_calls is_scroll evs = n
    /\ count_calls is_find evs = 0%nat
    /\ count_calls is_post evs = 0%nat.
Proof.
  intros Hwt Hup Hlo Hget Hvideo.
  unfold Automation.simulate_video_watching, try_except.
  destruct (navigate_succeeds url w (Hget _)) as (d & g1 & E1).
  rewrite (bind_Ret _ _ _ _ _ E1). cbn [negb].
  rewrite (bind_Ret _ _ _ _ _ (find_video_first co e _ (Hvideo _))).
  rewrite (bind_Ret _ _ _ _ _ (eq_refl : ret watch_time _ = (Ret watch_time, _))).
  match goal with |- context [bind (Automation._ensure_video_playing _ _ _) _ ?w2] =>
    destruct (returns_ensure cfg co e w2) as (playing & w3 & e3 & E3 & Ht3 & Hf3)
  end.
  rewrite (bind_Ret _ _ _ _ _ E3).
  destruct (scenario_loop n watch_time 0 w3) as (w4 & e4 & E4 & Ht4 & Hs & Hf & Hp);
    [lia | lia | lia |].
  rewrite (bind_Ret _ _ _ _ _ E4). cbn [ret].
  exists w4, ([DriverGet url; Sleep d] ++ [WaitUntilPresent "video"] ++ e3 ++ e4).
  split; [reflexivity|].
  split; [rewrite Ht4, Ht3; cbn [trace]; rewrite <- !app_assoc; reflexivity|].
  destruct (benign_counts e3 Hf3) as (Hb1 & Hb2 & Hb3).
  rewrite !count_calls_app. cbn [count_calls is_scroll is_find is_post].
  rewrite Hb1, Hb2, Hb3, Hs, Hf, Hp. repeat split; lia.
Qed.

End Scenario.

(** With a telemetry client and a recorded start time, completion posts
    one session report: the seconds since the start and the watcher's
    counters as they are. *)
Lemma report_completion_run {G : Type} (co : Collab) (self : Main.VideoWatcher)
    (video_url : string) (api : Socionator.SocionatorAPI) (t0 : Z) (w : World.t G) :
  Main.socionator self = Some api ->
  Main.start_time (Main.session_data self) = Some t0 ->
  Main._report_session_completion co self video_url w
  = (Ret tt,
     World.mk (rng w)
       (trace w ++
        [HttpPost (String.append (Socionator.api_endpoint api) "/sessions")
           (SessionPayload video_url (clock co (trace w) - t0)
              (Main.interactions (Main.session_data self))
              (if Main.tor_manager self then Some "tor"
               else Main.custom_proxy (Main.args self))
              (clock co (trace w)))])).
Proof.
  intros Hapi Hstart. unfold Main._report_session_completion.
  rewrite Hapi, Hstart.
  rewrite (bind_Ret _ _ _ _ _ (eq_refl : Socionator.now co w = (Ret _, w))).
  match goal with
  |- context [Socionator.send_watch_session co api video_url ?t ?i ?p] =>
    destruct (send_watch_session_run co api video_url t i p w) as (sent & E)
  end.
  now rewrite (bind_Ret _ _ _ _ _ E).
Qed.

(** C1, what the code does in the scenario: the session succeeds after 4
    ticks, makes exactly 4 scroll calls and never looks for an element to
    click; yet the watcher's counters still read 0 scrolls and 0 clicks at
    completion, and the session report posted to telemetry carries the
    counters exactly as [__init__] built them. *)
Theorem scenario_scrolls_are_not_counted
    {G : Type} `{RandomGen G} `{!RandomGenLaws G}
    (cfg : Config.t) (co : Collab) (self : Main.VideoWatcher)
    (url : string) (e : Element) (w : World.t G) :
  (Config.SCROLL_PROBABILITY cfg == 1)%Q ->
  (Config.CLICK_PROBABILITY cfg == 0)%Q ->
  (forall g, fst (randint 5 15 g) = Some 5) ->
  Main.url (Main.args self) = Some url ->
  Py.truthy url = true ->
  Main.watch_time (Main.args self) = Some 20 ->
  Main.session_data self = Main.initial_session_data ->
  (forall tr, driver_get_ok co tr url = true) ->
  (forall tr, wait_until co tr "video" = Located e) ->
  exists self' w' evs,
    Main.run_session cfg co 4 self w = (Ret (true, self'), w')
    /\ trace w' = trace w ++ evs
    /\ count_calls is_scroll evs = 4%nat
    /\ count_calls is_find evs = 0%nat
    /\ Main.interactions (Main.session_data self') !! "scrolls" = Some 0
    /\ Main.interactions (Main.session_data self') !! "clicks" = Some 0
    /\ match Main.socionator self with
       | Some api =>
           exists front watch_time proxy timestamp,
             evs = front ++
                   [HttpPost (String.append (Socionator.api_endpoint api) "/sessions")
                      (SessionPayload url watch_time
                         (Main.interactions Main.initial_session_data)
                         proxy timestamp)]
       | None => True
       end.
Proof.
  intros Hscroll Hclick Htick Hurl Htruthy Hwt Hdata Hget Hvideo.
  unfold Main.run_session.
  rewrite (bind_Ret _ _ _ _ _ (eq_refl : Socionator.now co w = (Ret _, w))).
  cbv beta zeta.
  set (self' := Main.set_start_time self (clock co (trace w))).
  change (Main.args self') with (Main.args self).
  change (Main.socionator self') with (Main.socionator self).
  change (Main.tor_manager self') with (Main.tor_manager self).
  rewrite Hurl, Hwt. change (default "" (Some url)) with url.
  unfold Py.str_or. rewrite Htruthy. cbv iota. rewrite !Htruthy.
  unfold try_except. cbn [negb].
  assert (Hinter : Main.interactions (Main.session_data self')
                   = Main.interactions Main.initial_session_data).
  { unfold self'. cbn. now rewrite Hdata. }
  assert (Hstart : exists w1 e1,
             match Main.socionator self with
             | Some api =>
                 bind (Socionator.send_engagement_event co api "session_start" url
                         (<["proxy_type" := if Main.tor_manager self
                                            then "tor" else "custom"]> ∅))
                      (fun _ => ret tt)
             | None => ret tt
             end w = (Ret tt, w1)
             /\ trace w1 = trace w ++ e1 /\ Forall off_page e1).
  { destruct (Main.socionator self) as [api|].
    - destruct (returns_send_engagement_event co api "session_start" url
                  (<["proxy_type" := if Main.tor_manager self
                                     then "tor" else "custom"]> ∅) w)
        as (sent & w1 & e1 & E1 & Ht1 & Hf1).
      exists w1, e1. rewrite (bind_Ret _ _ _ _ _ E1). repeat split; assumption.
    - exists w, []. rewrite app_nil_r. repeat split. constructor. }
  destruct Hstart as (w1 & e1 & E1 & Ht1 & Hf1).
  rewrite (bind_Ret _ _ _ _ _ E1).
  destruct (scenario_simulation cfg co Hscroll Hclick Htick 4 url 20 e w1)
    as (w2 & e2 & E2 & Ht2 & Hs2 & Hd2 & Hp2); [lia | lia | lia | exact Hget | exact Hvideo |].
  rewrite (bind_Ret _ _ _ _ _ E2). cbv beta iota.
  destruct (off_page_counts e1 Hf1) as [Hs1 Hd1].
  destruct (Main.socionator self) as [api|] eqn:Hapi.
  - rewrite (bind_Ret _ _ _ _ _
               (report_completion_run co self' url api (clock co (trace w)) w2
                  Hapi eq_refl)).
    cbn [ret].
    eexists self', _, (e1 ++ e2 ++ [_]).
    split; [reflexivity|].
    split; [cbn [trace]; rewrite Ht2, Ht1, <- !app_assoc; reflexivity|].
    rewrite !count_calls_app. cbn [count_calls is_scroll is_find].
    rewrite Hs1, Hd1, Hs2, Hd2, Hinter.
    split; [lia|]. split; [lia|]. split; [reflexivity|]. split; [reflexivity|].
    eexists (e1 ++ e2), _, _, _. rewrite <- app_assoc. reflexivity.
  - unfold Main._report_session_completion.
    change (Main.socionator self') with (Main.socionator self). rewrite Hapi.
    cbn [bind ret].
    exists self', w2, (e1 ++ e2).
    split; [reflexivity|].
    split; [rewrite Ht2, Ht1, <- app_assoc; reflexivity|].
    rewrite !count_calls_app, Hs1, Hd1, Hs2, Hd2, Hinter.
    repeat split; lia.
Qed.

Lemma scenario_scrolls_are_not_counted_witness :
  exists self' w' evs,
    Main.run_session scenario_config calm_page 4
      (watcher_for scenario_config "https://example.com/v1" (Some 20)) fresh_world
    = (Ret (true, self'), w')
    /\ trace w' = trace fresh_world ++ evs
    /\ count_calls is_scroll evs = 4%nat
    /\ count_calls is_find evs = 0%nat
    /\ Main.interactions (Main.session_data self') !! "scrolls" = Some 0
    /\ Main.interactions (Main.session_data self') !! "clicks" = Some 0
    /\ exists front watch_time proxy timestamp,
         evs = front ++
               [HttpPost "https://api.socionator.com/v1/sessions"
                  (SessionPayload "https://example.com/v1" watch_time
                     (Main.interactions Main.initial_session_data)
                     proxy timestamp)].
Proof.
  apply (scenario_scrolls_are_not_counted scenario_config calm_page
           (watcher_for scenario_config "https://example.com/v1" (Some 20))
           "https://example.com/v1" video_element fresh_world);
    first [ reflexivity | intros; reflexivity ].
Defined.

(* ===================================================================== *)
(** * Further properties of the engine *)

(** ** The curve stays inside the hull of its control points *)








(** ** More on the delay model and the action gate *)

(** X3: called without arguments, the delay sampler returns a value
    within the configured bounds whenever they are ordered, draws once and
    makes no call. *)
Theorem default_delay_in_configured_range
    {G : Type} `{RandomGen G} `{!RandomGenLaws G} (cfg : Config.t) (w : World.t G) :
  (Config.MIN_INTERACTION_DELAY cfg <= Config.MAX_INTERACTION_DELAY cfg)%Q ->
  exists d w',
    Utils.generate_random_delay cfg None None w = (Ret d, w')
    /\ (Config.MIN_INTERACTION_DELAY cfg <= d
        /\ d <= Config.MAX_INTERACTION_DELAY cfg)%Q
    /\ trace w' = trace w.
Proof.
  intro Hle. rewrite generate_random_delay_run. do 2 eexists.
  split; [reflexivity|]. split; [|reflexivity].
  destruct (random_unit (rng w)) as [Hu0 Hu1].
  cbn [Py.or_default]. cbv zeta. apply uniform_between; assumption.
Qed.

Lemma default_delay_in_configured_range_witness :
  exists d w',
    Utils.generate_random_delay default_config None None fresh_world = (Ret d, w')
    /\ (Config.MIN_INTERACTION_DELAY default_config <= d
        /\ d <= Config.MAX_INTERACTION_DELAY default_config)%Q
    /\ trace w' = trace fresh_world.
Proof.
  apply (default_delay_in_configured_range default_config fresh_world).
  discriminate.
Defined.



(** X5: a range of negative delays makes [wait_random_delay] raise
    [ValueError]: the sampled value is passed to [time.sleep] unchecked. *)
Theorem negative_delay_raises
    {G : Type} `{RandomGen G} `{!RandomGenLaws G}
    (cfg : Config.t) (lo hi : Q) (w : World.t G) :
  (lo <= hi)%Q -> (hi < 0)%Q ->
  exists d g',
    Utils.wait_random_delay cfg (Some lo) (Some hi) w
    = (Raise Py.ValueError, World.mk g' (trace w ++ [Sleep d]))
    /\ (d < 0)%Q.
Proof.
  intros Hle Hneg. unfold Utils.wait_random_delay.
  rewrite (bind_Ret _ _ _ _ _ (generate_random_delay_run cfg (Some lo) (Some hi) w)).
  rewrite !or_default_nonzero by (intro E; rewrite E in *; lra).
  cbv zeta. destruct (random_unit (rng w)) as [Hu0 Hu1].
  destruct (uniform_between lo hi _ Hle Hu0 Hu1) as [Hd1 Hd2].
  do 2 eexists. split; [|apply (Qle_lt_trans _ _ _ Hd2 Hneg)].
  unfold Utils.sleep, call. simpl.
  destruct (Qle_bool 0 (lo + (hi - lo) * fst (random (rng w)))) eqn:E;
    [|reflexivity].
  apply Qle_bool_iff in E. lra.
Qed.

Lemma negative_delay_raises_witness :
  exists d g',
    Utils.wait_random_delay default_config (Some (-2)%Q) (Some (-1)%Q) fresh_world
    = (Raise Py.ValueError, World.mk g' (trace fresh_world ++ [Sleep d]))
    /\ (d < 0)%Q.
Proof.
  apply (negative_delay_raises default_config (-2) (-1) fresh_world);
    discriminate || reflexivity.
Defined.

(** X6: a probability outside [[0, 1]] is used as it is: at 1 or above
    the gate always fires, at 0 or below it never does; and a gate that
    fires for [p] fires for every larger probability on the same draw. *)
Theorem action_gate_out_of_range
    {G : Type} `{RandomGen G} `{!RandomGenLaws G} (p q : Q) (w : World.t G) :
  ((1 <= p)%Q -> fst (Utils.should_perform_action p w) = Ret true)
  /\ ((p <= 0)%Q -> fst (Utils.should_perform_action p w) = Ret false)
  /\ ((p <= q)%Q -> fst (Utils.should_perform_action p w) = Ret true ->
      fst (Utils.should_perform_action q w) = Ret true)
  /\ trace (snd (Utils.should_perform_action p w)) = trace w.
Proof.
  rewrite !should_perform_action_run. cbn [fst snd trace].
  destruct (random_unit (rng w)) as [Hu0 Hu1].
  split; [|split; [|split; [|reflexivity]]].
  - intro Hp. f_equal. apply Qltb_true. lra.
  - intro Hp. f_equal. apply Qltb_false. lra.
  - intros Hpq Hf. injection Hf as Hf. apply Qltb_true in Hf.
    f_equal. apply Qltb_true. lra.
Qed.

Lemma action_gate_out_of_range_witness :
  ((1 <= 3 # 2)%Q ->
   fst (Utils.should_perform_action (3 # 2) fresh_world) = Ret true)
  /\ ((3 # 2 <= 0)%Q ->
      fst (Utils.should_perform_action (3 # 2) fresh_world) = Ret false)
  /\ ((3 # 2 <= 2)%Q ->
      fst (Utils.should_perform_action (3 # 2) fresh_world) = Ret true ->
      fst (Utils.should_perform_action 2 fresh_world) = Ret true)
  /\ trace (snd (Utils.should_perform_action (3 # 2) fresh_world)) = trace fresh_world.
Proof.
  exact (action_gate_out_of_range (3 # 2) 2 fresh_world).
Defined.

(** ** Locating the video element *)

Section Lookup.
Context {G : Type}.
Variable co : Collab.

(** The selectors before the first one that does not time out are tried
    in order; the answer of that one decides, and no later selector is
    tried. *)
Lemma try_selectors_prefix (pre : list string) (sel : string) (post : list string) :
  forall w : World.t G,
    (forall tr s, In s pre -> wait_until co tr s = TimedOut) ->
    (forall tr, wait_until co tr sel <> TimedOut) ->
    Automation.try_selectors co (pre ++ sel :: post) w
    = (match wait_until co (trace w ++ map WaitUntilPresent pre) sel with
       | Located e => Ret (Some e)
       | _ => Raise Py.WebDriverException
       end,
       World.mk (rng w)
         (trace w ++ map WaitUntilPresent pre ++ [WaitUntilPresent sel])).
Proof.
  induction pre as [|s pre IH]; intros w Hpre Hsel.
  - cbn [app map Automation.try_selectors]. rewrite app_nil_r.
    unfold try_except_timeout, bind, Automation.wait_for, call.
    specialize (Hsel (trace w)).
    destruct (wait_until co (trace w) sel); [reflexivity | congruence | reflexivity].
  - cbn [app map Automation.try_selectors].
    unfold try_except_timeout at 1, bind at 1, Automation.wait_for at 1, call at 1.
    rewrite (Hpre (trace w) s) by (left; reflexivity).
    rewrite IH by (try exact Hsel; intros tr s' Hs'; apply Hpre; right; exact Hs').
    cbn [rng trace]. rewrite <- !app_assoc. reflexivity.
Qed.

End Lookup.

(** X7: the first selector that is present wins.  When the selectors
    before [sel] time out and [sel] is present, [_find_video_element]
    returns the element found for [sel], having tried exactly the selectors
    up to [sel], in order; the remaining ones are never tried. *)
Theorem first_present_selector_wins
    {G : Type} (co : Collab) (pre : list string) (sel : string)
    (post : list string) (e : Element) (w : World.t G) :
  Automation.selectors = pre ++ sel :: post ->
  (forall tr s, In s pre -> wait_until co tr s = TimedOut) ->
  (forall tr, wait_until co tr sel = Located e) ->
  Automation._find_video_element co w
  = (Ret (Some e),
     World.mk (rng w)
       (trace w ++ map WaitUntilPresent pre ++ [WaitUntilPresent sel])).
Proof.
  intros Hsplit Hpre Hsel. unfold Automation._find_video_element, try_except.
  rewrite Hsplit, try_selectors_prefix.
  - now rewrite Hsel.
  - exact Hpre.
  - intro tr. now rewrite Hsel.
Qed.

Lemma first_present_selector_wins_witness :
  Automation._find_video_element embedded_page fresh_world
  = (Ret (Some video_element),
     World.mk (rng fresh_world)
       (trace fresh_world ++ map WaitUntilPresent ["video"]
        ++ [WaitUntilPresent "iframe[src*='youtube']"])).
Proof.
  apply (first_present_selector_wins embedded_page ["video"]
           "iframe[src*='youtube']" ["iframe[src*='vimeo']"; "#movie_player"]
           video_element fresh_world).
  - reflexivity.
  - intros tr s [<-|[]]. reflexivity.
  - intro tr. reflexivity.
Defined.

(** X8: a lookup that fails with anything but a timeout ends the search:
    [_find_video_element] returns [None] and the selectors after the
    failing one are never tried, even if they would match. *)
Theorem driver_error_ends_search
    {G : Type} (co : Collab) (pre : list string) (sel : string)
    (post : list string) (w : World.t G) :
  Automation.selectors = pre ++ sel :: post ->
  (forall tr s, In s pre -> wait_until co tr s = TimedOut) ->
  (forall tr, wait_until co tr sel = Broken) ->
  Automation._find_video_element co w
  = (Ret None,
     World.mk (rng w)
       (trace w ++ map WaitUntilPresent pre ++ [WaitUntilPresent sel])).
Proof.
  intros Hsplit Hpre Hsel. unfold Automation._find_video_element, try_except.
  rewrite Hsplit, try_selectors_prefix.
  - now rewrite Hsel.
  - exact Hpre.
  - intro tr. now rewrite Hsel.
Qed.

Lemma driver_error_ends_search_witness :
  Automation._find_video_element crashing_page fresh_world
  = (Ret None,
     World.mk (rng fresh_world)
       (trace fresh_world ++ map WaitUntilPresent ["video"]
        ++ [WaitUntilPresent "iframe[src*='youtube']"])).
Proof.
  apply (driver_error_ends_search crashing_page ["video"]
           "iframe[src*='youtube']" ["iframe[src*='vimeo']"; "#movie_player"]
           fresh_world).
  - reflexivity.
  - intros tr s [<-|[]]. reflexivity.
  - intro tr. reflexivity.
Defined.

(** ** Clicks and scrolls *)

Section Clicks.
Context {G : Type} `{RandomGen G} `{!RandomGenLaws G}.
Variable cfg : Config.t.
Variable co : Collab.

Lemma py_randint_empty (a b : Z) (w : World.t G) :
  b < a ->
  Utils.py_randint a b w
  = (Raise Py.ValueError, World.mk (snd (randint a b (rng w))) (trace w)).
Proof.
  intro Hlt. unfold Utils.py_randint.
  pose proof (randint_empty a b (rng w) Hlt) as E.
  destruct (randint a b (rng w)) as [r g']. simpl in E. now subst r.
Qed.

Lemma mouse_position_run (w : World.t G) :
  exists pos,
    Automation._get_current_mouse_position co w
    = (Ret pos, World.mk (rng w) (trace w ++ [ReadMousePosition])).
Proof.
  unfold Automation._get_current_mouse_position, try_except, call.
  destruct (mouse_position co (trace w)) as [pos|]; eexists; reflexivity.
Qed.

(** What a click on [element] can do: read the pointer position, move
    the pointer, click [element] and pause, stopping at the first error. *)
Lemma simulate_click_run (element : Element) (w : World.t G) :
  exists clicked w' evs,
    Automation._simulate_click cfg co element w = (Ret clicked, w')
    /\ trace w' = trace w ++ evs
    /\ Forall benign evs
    /\ (forall e', In (ElementClick e') evs -> e' = element)
    /\ (clicked = true ->
        In (ElementClick element) evs
        /\ exists tr, click_ok co tr element = true).
Proof.
  unfold Automation._simulate_click, try_except. cbv zeta.
  assert (Hstop : forall w0 : World.t G, trace w0 = trace w ->
            exists clicked w' evs,
              (Ret false, w0) = (Ret clicked, w')
              /\ trace w' = trace w ++ evs /\ Forall benign evs
              /\ (forall e', In (ElementClick e') evs -> e' = element)
              /\ (clicked = true ->
                  In (ElementClick element) evs
                  /\ exists tr, click_ok co tr element = true)).
  { intros w0 Hw0. exists false, w0, []. rewrite app_nil_r.
    split; [reflexivity|]. split; [exact Hw0|]. split; [constructor|].
    split; [intros e' []|discriminate]. }
  unfold bind at 1, Utils.py_randint at 1.
  destruct (randint 5 (fst (size element) - 5) (rng w)) as [[rx|] g1];
    cbn [some_or_raise]; [|apply Hstop; reflexivity].
  unfold bind at 1, Utils.py_randint at 1. cbn [rng trace].
  destruct (randint 5 (snd (size element) - 5) g1) as [[ry|] g2];
    cbn [some_or_raise]; [|apply Hstop; reflexivity].
  set (w2 := World.mk g2 (trace w)).
  destruct (mouse_position_run w2) as (pos & Epos).
  rewrite (bind_Ret _ _ _ _ _ Epos). cbn [rng trace w2].
  set (w3 := World.mk g2 (trace w ++ [ReadMousePosition])).
  set (target := (fst (location element) + rx, snd (location element) + ry)).
  destruct (mouse_movement_follows_curve co pos target 25 w3)
    as (cp1 & cp2 & chain & r & g4 & Emove & _).
  destruct (emits_mouse co benign (fun _ Hb => Hb) pos target 25 w3)
    as (r' & w4' & evs' & Emove' & Hr' & _).
  rewrite Emove in Emove'. injection Emove' as <- _.
  unfold bind at 1. rewrite Emove. cbn [trace w3].
  assert (Hfail : forall (w0 : World.t G) (evs : list event),
            trace w0 = trace w ++ evs -> Forall benign evs ->
            (forall e', In (ElementClick e') evs -> e' = element) ->
            exists clicked w' evs0,
              (Ret false, w0) = (Ret clicked, w')
              /\ trace w' = trace w ++ evs0 /\ Forall benign evs0
              /\ (forall e', In (ElementClick e') evs0 -> e' = element)
              /\ (clicked = true ->
                  In (ElementClick element) evs0
                  /\ exists tr, click_ok co tr element = true)).
  { intros w0 evs Hw0 Hb Hc. exists false, w0, evs.
    split; [reflexivity|]. split; [exact Hw0|]. split; [exact Hb|].
    split; [exact Hc | discriminate]. }
  destruct r as [[]|e|]; [| |contradiction].
  2: { apply (Hfail _ [ReadMousePosition; Perform chain]).
       - cbn [trace]. now rewrite <- app_assoc.
       - repeat constructor.
       - intros e' [E|[E|[]]]; discriminate E. }
  unfold bind at 1, call at 1. cbn [rng trace].
  set (tr := (trace w ++ [ReadMousePosition]) ++ [Perform chain]).
  destruct (click_ok co tr element) eqn:Hclick; cbn [ok_or_raise].
  2: { apply (Hfail _ [ReadMousePosition; Perform chain; ElementClick element]).
       - cbn [trace]. unfold tr. now rewrite <- !app_assoc.
       - repeat constructor.
       - intros e' [E|[E|[E|[]]]]; try discriminate E. now injection E. }
  match goal with |- context [bind (Utils.wait_random_delay _ _ _) _ ?w5] =>
    destruct (wait_positive cfg 0.1 0.3 w5) as (d & g6 & Ew & _);
      [reflexivity | discriminate |]
  end.
  rewrite (bind_Ret _ _ _ _ _ Ew). cbn [ret trace].
  eexists true, _, [ReadMousePosition; Perform chain; ElementClick element; Sleep d].
  split; [reflexivity|].
  split; [cbn [trace]; unfold tr; now rewrite <- !app_assoc|].
  split; [repeat constructor|].
  split.
  - intros e' [E|[E|[E|[E|[]]]]]; try discriminate E. now injection E.
  - intros _. split; [right; right; left; reflexivity | exists tr; exact Hclick].
Qed.

End Clicks.

(** X9: an element narrower or lower than 10 pixels is never clicked:
    [randint(5, size - 5)] has an empty range, so [_simulate_click] returns
    [False] without a single browser call. *)
Theorem small_element_is_never_clicked
    {G : Type} `{RandomGen G} `{!RandomGenLaws G}
    (cfg : Config.t) (co : Collab) (element : Element) (w : World.t G) :
  fst (size element) < 10 \/ snd (size element) < 10 ->
  exists g',
    Automation._simulate_click cfg co element w
    = (Ret false, World.mk g' (trace w)).
Proof.
  intro Hsmall. unfold Automation._simulate_click, try_except. cbv zeta.
  destruct (Z_lt_ge_dec (fst (size element)) 10) as [Hw|Hw].
  - unfold bind at 1. rewrite py_randint_empty by lia.
    eexists. reflexivity.
  - destruct Hsmall as [Hs|Hs]; [lia|].
    destruct (randint_in 5 (fst (size element) - 5) (rng w)) as (rx & Ex & _); [lia|].
    rewrite (bind_Ret _ _ _ _ _ (py_randint_run _ _ _ w Ex)).
    unfold bind at 1. rewrite py_randint_empty by lia.
    eexists. reflexivity.
Qed.

Lemma small_element_is_never_clicked_witness :
  exists g',
    Automation._simulate_click default_config calm_page tiny_element fresh_world
    = (Ret false, World.mk g' (trace fresh_world)).
Proof.
  apply (small_element_is_never_clicked default_config calm_page tiny_element
           fresh_world).
  left. reflexivity.
Defined.



(** X11: a random click starts with one search for safe elements, never
    raises, and clicks only an element that this search returned; when the
    search returns nothing or fails, nothing else is called. *)
Theorem random_click_stays_on_safe_elements
    {G : Type} `{RandomGen G} `{!RandomGenLaws G}
    (cfg : Config.t) (co : Collab) (w : World.t G) :
  exists w' evs,
    Automation._perform_random_click cfg co w = (Ret tt, w')
    /\ trace w' = trace w ++ FindElements Automation.safe_selector :: evs
    /\ (forall e, In (ElementClick e) evs ->
          exists found,
            find_elements co (trace w) Automation.safe_selector = Some found
            /\ In e found)
    /\ (match find_elements co (trace w) Automation.safe_selector with
        | Some (_ :: _) => True
        | _ => evs = [] /\ rng w' = rng w
        end).
Proof.
  unfold Automation._perform_random_click, try_except.
  unfold bind at 1, call at 1.
  destruct (find_elements co (trace w) Automation.safe_selector) as [[|e0 found]|];
    cbn [some_or_raise ret].
  - eexists _, []. split; [reflexivity|]. split; [reflexivity|].
    split; [intros e []|]. split; reflexivity.
  - set (w1 := World.mk (rng w) (trace w ++ [FindElements Automation.safe_selector])).
    unfold bind at 1, Automation.py_choice, bind at 1, draw.
    destruct (choice (length (e0 :: found)) (rng w1)) as [i g1].
    destruct (nth_error (e0 :: found) i) as [element|] eqn:Hnth.
    + cbn [ret].
      match goal with
      |- context [bind (Automation._simulate_click cfg co element) _ ?w2] =>
        destruct (simulate_click_run cfg co element w2)
          as (clicked & w3 & evs & E & Ht & _ & Honly & _)
      end.
      rewrite (bind_Ret _ _ _ _ _ E). cbn [ret].
      exists w3, evs. split; [reflexivity|].
      split; [rewrite Ht; cbn [trace w1]; now rewrite <- app_assoc|].
      split; [|exact I].
      intros e He. apply Honly in He. subst e.
      exists (e0 :: found). split; [reflexivity|].
      eapply nth_error_In. exact Hnth.
    + cbn [raise]. eexists _, []. split; [reflexivity|].
      split; [reflexivity|]. split; [intros e []|exact I].
  - eexists _, []. split; [reflexivity|]. split; [reflexivity|].
    split; [intros e []|]. split; reflexivity.
Qed.

Lemma random_click_stays_on_safe_elements_witness :
  exists w' evs,
    Automation._perform_random_click default_config button_page fresh_world
    = (Ret tt, w')
    /\ trace w' = trace fresh_world ++ FindElements Automation.safe_selector :: evs
    /\ (forall e, In (ElementClick e) evs ->
          exists found,
            find_elements button_page (trace fresh_world) Automation.safe_selector
            = Some found
            /\ In e found)
    /\ True.
Proof.
  exact (random_click_stays_on_safe_elements default_config button_page fresh_world).
Defined.

Section ScrollAndLoop.
Context {G : Type} `{RandomGen G} `{!RandomGenLaws G}.
Variable cfg : Config.t.
Variable co : Collab.

(** Whatever the bounds, waiting draws one delay and calls [time.sleep]
    once. *)
Lemma wait_run (lo hi : option Q) (w : World.t G) :
  exists r d g',
    Utils.wait_random_delay cfg lo hi w
    = (r, World.mk g' (trace w ++ [Sleep d]))
    /\ r <> OutOfFuel.
Proof.
  unfold Utils.wait_random_delay.
  rewrite (bind_Ret _ _ _ _ _ (generate_random_delay_run cfg lo hi w)).
  unfold Utils.sleep, call. cbn [rng trace].
  eexists _, _, _. split; [reflexivity | apply ok_or_raise_fuel].
Qed.

Lemma scroll_run (w : World.t G) :
  exists w' a rest,
    Automation._perform_random_scroll cfg co w = (Ret tt, w')
    /\ trace w' = trace w ++ ScrollBy a :: rest
    /\ -300 <= a <= 300
    /\ (if scroll_by_ok co (trace w) a
        then exists d, rest = [Sleep d] else rest = []).
Proof.
  unfold Automation._perform_random_scroll, try_except.
  destruct (randint_in (-300) 300 (rng w)) as (a & Ea & Ha); [lia|].
  rewrite (bind_Ret _ _ _ _ _ (py_randint_run _ _ _ w Ea)).
  unfold bind at 1, call at 1. cbn [trace rng].
  destruct (scroll_by_ok co (trace w) a) eqn:Hok; cbn [ok_or_raise].
  - match goal with |- context [Utils.wait_random_delay cfg None None ?w2] =>
      destruct (wait_run None None w2) as (r & d & g' & E & Hr)
    end.
    rewrite E. cbn [trace].
    eexists _, a, [Sleep d].
    split; [destruct r as [[]|e|]; [reflexivity | reflexivity | contradiction]|].
    split; [destruct r as [[]|e|]; cbn [trace ret]; now rewrite <- app_assoc|].
    split; [exact Ha|]. rewrite Hok. eexists; reflexivity.
  - eexists _, a, []. cbn [ret trace]. split; [reflexivity|].
    split; [reflexivity|]. split; [exact Ha|]. rewrite Hok. reflexivity.
Qed.

Lemma tick_events_post_free (b1 b2 : bool) (es ec : list event) (d : Q) :
  (if b1 then exists a rest, es = ScrollBy a :: rest /\ Forall benign rest
   else es = []) ->
  (if b2 then Forall non_scroll ec else ec = []) ->
  Forall (fun ev => is_post ev = false) (es ++ ec ++ [Sleep d]).
Proof.
  intros Hes Hec. apply Forall_app. split; [|apply Forall_app; split].
  - destruct b1; [|subst es; constructor].
    destruct Hes as (a & rest & -> & Hrest).
    constructor; [reflexivity|].
    eapply Forall_impl; [exact Hrest|]. intros ev Hev. now destruct ev.
  - destruct b2; [|subst ec; constructor].
    eapply Forall_impl; [exact Hec|]. intros ev Hev. now destruct ev.
  - constructor; [reflexivity | constructor].
Qed.

(** One iteration per started 5 seconds is enough; the loop posts no
    telemetry. *)
Lemma watch_loop_run (n : nat) :
  forall (watch_time start_time : Z) (w : World.t G),
    start_time <= watch_time ->
    watch_time - start_time <= 5 * Z.of_nat n ->
    exists w' evs,
      Automation.watch_loop cfg co n watch_time start_time w = (Ret watch_time, w')
      /\ trace w' = trace w ++ evs
      /\ Forall (fun ev => is_post ev = false) evs.
Proof.
  induction n as [|n IH]; intros watch_time start_time w Hle Hup.
  - assert (start_time = watch_time) as -> by lia.
    exists w, []. cbn [Automation.watch_loop]. rewrite Z.ltb_irrefl, app_nil_r.
    split; [reflexivity|]. split; [reflexivity | constructor].
  - destruct (Z.eq_dec start_time watch_time) as [->|Hne].
    + exists w, []. cbn [Automation.watch_loop]. rewrite Z.ltb_irrefl, app_nil_r.
      split; [reflexivity|]. split; [reflexivity | constructor].
    + destruct (watch_tick cfg co n watch_time start_time w)
        as (u1 & u2 & r & g & es & ec & d & w1
            & _ & _ & _ & Hr & E & Ht & Hes & Hec); [lia|].
      destruct (IH watch_time (start_time + Z.min r (watch_time - start_time)) w1)
        as (w' & evs & E' & Ht' & Hp); [lia | lia |].
      rewrite E, E'. exists w', ((es ++ ec ++ [Sleep d]) ++ evs).
      split; [reflexivity|].
      split; [rewrite Ht', Ht, <- !app_assoc; reflexivity|].
      apply Forall_app. split; [|exact Hp].
      eapply tick_events_post_free; eassumption.
Qed.

(** Fewer iterations than one per 15 seconds are not enough. *)
Lemma watch_loop_needs_ticks (n : nat) :
  forall (watch_time start_time : Z) (w : World.t G),
    15 * Z.of_nat n < watch_time - start_time ->
    fst (Automation.watch_loop cfg co n watch_time start_time w) = OutOfFuel.
Proof.
  induction n as [|n IH]; intros watch_time start_time w Hlt.
  - cbn [Automation.watch_loop].
    rewrite (proj2 (Z.ltb_lt start_time watch_time)) by lia. reflexivity.
  - destruct (watch_tick cfg co n watch_time start_time w)
      as (u1 & u2 & r & g & es & ec & d & w1
          & _ & _ & _ & Hr & E & _); [lia|].
    rewrite E. apply IH. lia.
Qed.

End ScrollAndLoop.

(** X12: a random scroll never raises and makes exactly one scroll call,
    by an amount between -300 and 300 pixels; it is followed by one pause
    when the scroll went through and by nothing when it failed. *)
Theorem random_scroll_is_bounded
    {G : Type} `{RandomGen G} `{!RandomGenLaws G}
    (cfg : Config.t) (co : Collab) (w : World.t G) :
  exists w' a rest,
    Automation._perform_random_scroll cfg co w = (Ret tt, w')
    /\ trace w' = trace w ++ ScrollBy a :: rest
    /\ -300 <= a <= 300
    /\ (if scroll_by_ok co (trace w) a
        then exists d, rest = [Sleep d] else rest = []).
Proof. apply scroll_run. Qed.

Lemma random_scroll_is_bounded_witness :
  exists w' a rest,
    Automation._perform_random_scroll default_config calm_page fresh_world
    = (Ret tt, w')
    /\ trace w' = trace fresh_world ++ ScrollBy a :: rest
    /\ -300 <= a <= 300
    /\ (if scroll_by_ok calm_page (trace fresh_world) a
        then exists d, rest = [Sleep d] else rest = []).
Proof.
  exact (random_scroll_is_bounded default_config calm_page fresh_world).
Defined.

(** X13: a watch of [watch_time >= 0] seconds takes at least
    [watch_time / 15] and at most [watch_time / 5] ticks, rounded up: the
    loop finishes within any budget of one iteration per started 5
    seconds, and within no budget below one iteration per 15 seconds. *)
Theorem tick_count_bounds
    {G : Type} `{RandomGen G} `{!RandomGenLaws G}
    (cfg : Config.t) (co : Collab) (watch_time : Z) (w : World.t G) :
  0 <= watch_time ->
  (forall fuel, watch_time <= 5 * Z.of_nat fuel ->
     exists w', Automation.watch_loop cfg co fuel watch_time 0 w
                = (Ret watch_time, w'))
  /\ (forall fuel, 15 * Z.of_nat fuel < watch_time ->
        fst (Automation.watch_loop cfg co fuel watch_time 0 w) = OutOfFuel).
Proof.
  intro Hwt. split; intros fuel Hf.
  - destruct (watch_loop_run cfg co fuel watch_time 0 w) as (w' & evs & E & _);
      [lia | lia |].
    exists w'. exact E.
  - apply watch_loop_needs_ticks. lia.
Qed.

Lemma tick_count_bounds_witness :
  (forall fuel, 60 <= 5 * Z.of_nat fuel ->
     exists w', Automation.watch_loop default_config calm_page fuel 60 0 fresh_world
                = (Ret 60, w'))
  /\ (forall fuel, 15 * Z.of_nat fuel < 60 ->
        fst (Automation.watch_loop default_config calm_page fuel 60 0 fresh_world)
        = OutOfFuel).
Proof.
  apply (tick_count_bounds default_config calm_page 60 fresh_world). lia.
Defined.

(** ** Whole simulations *)

Section Simulation.
Context {G : Type} `{RandomGen G} `{!RandomGenLaws G}.
Variable cfg : Config.t.
Variable co : Collab.

Lemma emits_selectors (sels : list string) :
  emits (G := G) benign (Automation.try_selectors co sels).
Proof.
  induction sels as [|selector rest IH]; cbn [Automation.try_selectors].
  - emits_step.
  - emits_step; [|exact IH]. emits_step; [|emits_step].
    unfold Automation.wait_for. apply emits_call; [exact I|].
    intro tr. now destruct (wait_until co tr selector).
Qed.

Lemma find_video_returns :
  returns (G := G) benign (Automation._find_video_element co).
Proof.
  intro w. unfold Automation._find_video_element.
  apply emits_caught, emits_selectors.
Qed.

(** With an explicit watch time and one iteration per started 5 seconds,
    the simulation returns a boolean. *)
Lemma simulation_returns (fuel : nat) (url : string) (watch_time : Z) (w : World.t G) :
  watch_time <= 5 * Z.of_nat fuel ->
  exists b w' evs,
    Automation.simulate_video_watching cfg co fuel url (Some watch_time) w
    = (Ret b, w')
    /\ trace w' = trace w ++ evs
    /\ Forall (fun ev => is_post ev = false) evs.
Proof.
  intro Hf. unfold Automation.simulate_video_watching, try_except.
  assert (Hbn : forall evs, Forall benign evs ->
                            Forall (fun ev => is_post ev = false) evs).
  { intros evs Hb. eapply Forall_impl; [exact Hb|]. intros ev Hev. now destruct ev. }
  destruct (returns_navigate cfg co url w) as (navigated & w1 & e1 & E1 & Ht1 & Hf1).
  rewrite (bind_Ret _ _ _ _ _ E1).
  destruct navigated; cbn [negb];
    [|exists false, w1, e1; split; [reflexivity|]; split; [exact Ht1 | auto]].
  destruct (find_video_returns w1) as (found & w2 & e2 & E2 & Ht2 & Hf2).
  rewrite (bind_Ret _ _ _ _ _ E2).
  destruct found as [element|].
  2: { exists false, w2, (e1 ++ e2). split; [reflexivity|].
       split; [rewrite Ht2, Ht1, <- app_assoc; reflexivity|].
       apply Forall_app; split; auto. }
  rewrite (bind_Ret _ _ _ _ _ (eq_refl : ret watch_time w2 = (Ret watch_time, w2))).
  destruct (returns_ensure cfg co element w2) as (playing & w3 & e3 & E3 & Ht3 & Hf3).
  rewrite (bind_Ret _ _ _ _ _ E3).
  assert (Hloop : exists elapsed w4 e4,
             Automation.watch_loop cfg co fuel watch_time 0 w3 = (Ret elapsed, w4)
             /\ trace w4 = trace w3 ++ e4
             /\ Forall (fun ev => is_post ev = false) e4).
  { destruct (Z_lt_ge_dec watch_time 0) as [Hneg|Hpos].
    - exists 0, w3, []. rewrite app_nil_r.
      split; [|split; [reflexivity | constructor]].
      destruct fuel; cbn [Automation.watch_loop];
        rewrite (proj2 (Z.ltb_ge 0 watch_time)) by lia; reflexivity.
    - destruct (watch_loop_run cfg co fuel watch_time 0 w3)
        as (w4 & e4 & E4 & Ht4 & Hp4); [lia | lia |].
      exists watch_time, w4, e4. repeat split; assumption. }
  destruct Hloop as (elapsed & w4 & e4 & E4 & Ht4 & Hp4).
  rewrite (bind_Ret _ _ _ _ _ E4). cbn [ret].
  exists true, w4, (e1 ++ e2 ++ e3 ++ e4). split; [reflexivity|].
  split; [rewrite Ht4, Ht3, Ht2, Ht1, <- !app_assoc; reflexivity|].
  repeat (apply Forall_app; split); auto.
Qed.


End Simulation.

(** X14: with an explicit watch time, [simulate_video_watching] never
    lets an exception out and always terminates: within one iteration per
    started 5 seconds it returns a boolean, and it posts no telemetry
    itself. *)
Theorem simulation_never_raises
    {G : Type} `{RandomGen G} `{!RandomGenLaws G}
    (cfg : Config.t) (co : Collab) (fuel : nat) (url : string)
    (watch_time : Z) (w : World.t G) :
  watch_time <= 5 * Z.of_nat fuel ->
  exists b w' evs,
    Automation.simulate_video_watching cfg co fuel url (Some watch_time) w
    = (Ret b, w')
    /\ trace w' = trace w ++ evs
    /\ Forall (fun ev => is_post ev = false) evs.
Proof. apply simulation_returns. Qed.

Lemma simulation_never_raises_witness :
  exists b w' evs,
    Automation.simulate_video_watching default_config crashing_page 6
      "https://example.com/v1" (Some 30) fresh_world
    = (Ret b, w')
    /\ trace w' = trace fresh_world ++ evs
    /\ Forall (fun ev => is_post ev = false) evs.
Proof.
  apply (simulation_never_raises default_config crashing_page 6
           "https://example.com/v1" 30 fresh_world).
  lia.
Defined.

(** X15: without an explicit watch time, inverted watch-time bounds make
    every session fail: [randint(MIN_WATCH_TIME, MAX_WATCH_TIME)] raises on
    the empty range and the simulation returns [False]. *)
Theorem inverted_watch_time_bounds_fail
    {G : Type} `{RandomGen G} `{!RandomGenLaws G}
    (cfg : Config.t) (co : Collab) (fuel : nat) (url : string) (w : World.t G) :
  Config.MAX_WATCH_TIME cfg < Config.MIN_WATCH_TIME cfg ->
  exists w',
    Automation.simulate_video_watching cfg co fuel url None w = (Ret false, w').
Proof.
  intro Hinv. unfold Automation.simulate_video_watching, try_except.
  destruct (returns_navigate cfg co url w) as (navigated & w1 & e1 & E1 & _).
  rewrite (bind_Ret _ _ _ _ _ E1).
  destruct navigated; cbn [negb]; [|exists w1; reflexivity].
  destruct (find_video_returns co w1) as (found & w2 & e2 & E2 & _).
  rewrite (bind_Ret _ _ _ _ _ E2).
  destruct found as [element|]; [|exists w2; reflexivity].
  unfold bind at 1. rewrite py_randint_empty by exact Hinv.
  eexists. reflexivity.
Qed.

(** X16: when [driver.get] raises, the simulation returns [False] at
    once: no pause, no element lookup, no playback attempt. *)
Theorem failed_navigation_stops_simulation
    {G : Type} `{RandomGen G} (cfg : Config.t) (co : Collab) (fuel : nat)
    (url : string) (watch_time : option Z) (w : World.t G) :
  driver_get_ok co (trace w) url = false ->
  Automation.simulate_video_watching cfg co fuel url watch_time w
  = (Ret false, World.mk (rng w) (trace w ++ [DriverGet url])).
Proof.
  intro Hget. unfold Automation.simulate_video_watching, try_except.
  unfold bind at 1, Automation.navigate_to_url, try_except.
  unfold bind at 1, call at 1. rewrite Hget. reflexivity.
Qed.

Lemma inverted_watch_time_bounds_fail_witness :
  exists w',
    Automation.simulate_video_watching inverted_watch_config calm_page 0
      "https://example.com/v1" None fresh_world
    = (Ret false, w').
Proof.
  apply (inverted_watch_time_bounds_fail inverted_watch_config calm_page 0
           "https://example.com/v1" fresh_world).
  reflexivity.
Defined.

Lemma failed_navigation_stops_simulation_witness :
  Automation.simulate_video_watching default_config offline_page 0
    "https://example.com/v1" (Some 30) fresh_world
  = (Ret false,
     World.mk (rng fresh_world)
       (trace fresh_world ++ [DriverGet "https://example.com/v1"])).
Proof.
  apply (failed_navigation_stops_simulation default_config offline_page 0
           "https://example.com/v1" (Some 30) fresh_world).
  reflexivity.
Defined.

(** ** Telemetry *)

(** X17: an engagement event is reported as sent exactly when the client
    has an API key and the endpoint answers 201; the call never raises, and
    without a key no request is made at all. *)
Theorem engagement_event_sent_iff_created
    {G : Type} (co : Collab) (api : Socionator.SocionatorAPI)
    (event_type video_url : string) (metadata : gmap string string)
    (w : World.t G) :
  let body := EventPayload event_type video_url (clock co (trace w)) metadata in
  let url := String.append (Socionator.api_endpoint api) "/events" in
  exists sent w',
    Socionator.send_engagement_event co api event_type video_url metadata w
    = (Ret sent, w')
    /\ (sent = true <->
        Py.truthy (Socionator.api_key api) = true
        /\ http_post co (trace w) url body = Some 201)
    /\ (Py.truthy (Socionator.api_key api) = false -> w' = w)
    /\ (Py.truthy (Socionator.api_key api) = true ->
        trace w' = trace w ++ [HttpPost url body]).
Proof.
  intros body url. unfold Socionator.send_engagement_event.
  destruct (Py.truthy (Socionator.api_key api)) eqn:Hk; cbn [negb].
  - unfold try_except, bind, Socionator.now, Socionator.post, call. cbn [trace rng].
    fold body. fold url.
    destruct (http_post co (trace w) url body) as [status|] eqn:Hp;
      cbn [some_or_raise].
    + destruct (Z.eqb_spec status 201) as [->|Hne]; eexists _, _;
        (split; [reflexivity|]); (split; [|split; [discriminate | reflexivity]]).
      * split; [intros _; split; reflexivity | reflexivity].
      * split; [discriminate | intros [_ E]; congruence].
    + eexists _, _. split; [reflexivity|].
      split; [|split; [discriminate | reflexivity]].
      split; [discriminate | intros [_ E]; discriminate E].
  - exists false, w. split; [reflexivity|].
    split; [|split; [reflexivity | discriminate]].
    split; [discriminate | intros [E _]; discriminate E].
Qed.

(** X18: a session report is posted exactly once whether or not the
    client has an API key, and is reported as sent exactly when the
    endpoint answers 201; the call never raises. *)
Theorem session_report_always_posted
    {G : Type} (co : Collab) (api : Socionator.SocionatorAPI) (video_url : string)
    (watch_time : Z) (interactions : gmap string Z) (proxy_used : option string)
    (w : World.t G) :
  let body := SessionPayload video_url watch_time interactions proxy_used
                             (clock co (trace w)) in
  let url := String.append (Socionator.api_endpoint api) "/sessions" in
  exists sent,
    Socionator.send_watch_session co api video_url watch_time interactions
      proxy_used w
    = (Ret sent, World.mk (rng w) (trace w ++ [HttpPost url body]))
    /\ (sent = true <-> http_post co (trace w) url body = Some 201).
Proof.
  intros body url. unfold Socionator.send_watch_session.
  unfold try_except, bind, Socionator.now, Socionator.post, call. cbn [trace rng].
  fold body. fold url.
  destruct (http_post co (trace w) url body) as [status|] eqn:Hp;
    cbn [some_or_raise].
  - destruct (Z.eqb_spec status 201) as [->|Hne]; eexists;
      (split; [reflexivity|]).
    + split; reflexivity.
    + split; [discriminate | congruence].
  - eexists. split; [reflexivity|]. split; discriminate.
Qed.

(** ** Whole sessions *)

Section Yields.
Context {G : Type}.

Lemma yields_ret {A : Type} (Q : A -> Prop) (a : A) : Q a -> yields (G := G) Q (ret a).
Proof. intros Ha w a' w' E. injection E as <- _. exact Ha. Qed.

Lemma yields_bind {A B : Type} (Q : B -> Prop) (m : M G A) (k : A -> M G B) :
  (forall a, yields Q (k a)) -> yields Q (bind m k).
Proof.
  intros Hk w b w' E. unfold bind in E.
  destruct (m w) as [[a|e|] w1]; [|discriminate E|discriminate E].
  exact (Hk a w1 b w' E).
Qed.

Lemma yields_try {A : Type} (Q : A -> Prop) (m : M G A) (h : Py.exn -> M G A) :
  yields Q m -> (forall e, yields Q (h e)) -> yields Q (try_except m h).
Proof.
  intros Hm Hh w a w' E. unfold try_except in E.
  destruct (m w) as [[a0|e|] w1] eqn:Em; [| |discriminate E].
  - injection E as <- <-. exact (Hm w a0 w1 Em).
  - exact (Hh e w1 a w' E).
Qed.

End Yields.

(** X19: whatever happens during a session, the watcher that
    [run_session] leaves behind differs from the one it was given only by
    its start time, set to the clock at entry: the arguments, the
    components and the interaction counters are never written. *)
Theorem session_only_records_start_time
    {G : Type} `{RandomGen G} (cfg : Config.t) (co : Collab) (fuel : nat)
    (self self' : Main.VideoWatcher) (w w' : World.t G) (success : bool) :
  Main.run_session cfg co fuel self w = (Ret (success, self'), w') ->
  Main.args self' = Main.args self
  /\ Main.tor_manager self' = Main.tor_manager self
  /\ Main.socionator self' = Main.socionator self
  /\ Main.interactions (Main.session_data self')
     = Main.interactions (Main.session_data self)
  /\ Main.start_time (Main.session_data self') = Some (clock co (trace w)).
Proof.
  intro E. unfold Main.run_session in E.
  rewrite (bind_Ret _ _ _ _ _ (eq_refl : Socionator.now co w = (Ret _, w))) in E.
  cbv beta zeta in E.
  set (self0 := Main.set_start_time self (clock co (trace w))) in E.
  assert (Hy : self' = self0).
  { revert E.
    match goal with |- ?m w = _ -> _ =>
      assert (Hm : yields (fun r : bool * Main.VideoWatcher => snd r = self0) m)
    end.
    { apply yields_try.
      - match goal with |- yields _ (if ?c then _ else _) => destruct c end.
        + now apply yields_ret.
        + apply yields_bind. intros _. apply yields_bind. intros [|];
            apply yields_bind; intros _; now apply yields_ret.
      - intro e. apply yields_bind. intros _. now apply yields_ret. }
    intro E. exact (Hm w _ w' E). }
  subst self'. repeat split.
Qed.

Lemma session_only_records_start_time_witness :
  exists success self' w',
    Main.run_session default_config offline_page 0
      (watcher_for default_config "https://example.com/v1" (Some 30)) fresh_world
    = (Ret (success, self'), w')
    /\ Main.interactions (Main.session_data self')
       = Main.interactions Main.initial_session_data
    /\ Main.start_time (Main.session_data self')
       = Some (clock offline_page (trace fresh_world)).
Proof.
  assert (E : exists success self' w',
             Main.run_session default_config offline_page 0
               (watcher_for default_config "https://example.com/v1" (Some 30))
               fresh_world
             = (Ret (success, self'), w'))
    by (eexists _, _, _; vm_compute; reflexivity).
  destruct E as (success & self' & w' & E).
  exists success, self', w'. split; [exact E|].
  destruct (session_only_records_start_time default_config offline_page 0
              (watcher_for default_config "https://example.com/v1" (Some 30))
              self' fresh_world w' success E) as (_ & _ & _ & Hi & Hs).
  split; [exact Hi | exact Hs].
Defined.

(** X20: without a video URL, neither on the command line nor in the
    configuration, [run_session] returns [False] after recording the start
    time: no browser call is made and nothing is sent to telemetry. *)
Theorem session_without_url_does_nothing
    {G : Type} `{RandomGen G} (cfg : Config.t) (co : Collab) (fuel : nat)
    (self : Main.VideoWatcher) (w : World.t G) :
  Py.truthy (default "" (Main.url (Main.args self))) = false ->
  Py.truthy (Config.TARGET_VIDEO_URL cfg) = false ->
  Main.run_session cfg co fuel self w
  = (Ret (false, Main.set_start_time self (clock co (trace w))), w).
Proof.
  intros Hurl Hcfg. unfold Main.run_session.
  rewrite (bind_Ret _ _ _ _ _ (eq_refl : Socionator.now co w = (Ret _, w))).
  cbv beta zeta.
  change (Main.args (Main.set_start_time self (clock co (trace w))))
    with (Main.args self).
  unfold Py.str_or. rewrite Hurl, Hcfg. reflexivity.
Qed.

Lemma session_without_url_does_nothing_witness :
  Main.run_session default_config calm_page 0
    (Main.initialized default_config (Main.init (Main.mkArgs None (Some 30) None true false)))
    fresh_world
  = (Ret (false,
          Main.set_start_time
            (Main.initialized default_config
               (Main.init (Main.mkArgs None (Some 30) None true false)))
            (clock calm_page (trace fresh_world))),
     fresh_world).
Proof.
  apply (session_without_url_does_nothing default_config calm_page 0
           (Main.initialized default_config
              (Main.init (Main.mkArgs None (Some 30) None true false)))
           fresh_world); reflexivity.
Defined.



(** ** More on the configuration *)

Lemma getenv_insert_other (env : gmap string string) (k v key dflt : string) :
  k <> key -> Config.getenv (<[k := v]> env) key dflt = Config.getenv env key dflt.
Proof. intro Hne. unfold Config.getenv. now rewrite lookup_insert_ne. Qed.

(** X22: the configuration depends on the 21 recognised environment
    variables only: setting any other variable changes neither whether
    loading succeeds nor any loaded value. *)
Theorem config_ignores_other_variables
    (int_of_string : string -> option Z) (float_of_string : string -> option Q)
    (env : gmap string string) (k v : string) :
  ~ In k settings ->
  Config.load int_of_string float_of_string (<[k := v]> env)
  = Config.load int_of_string float_of_string env.
Proof.
  intro Hk. unfold Config.load.
  rewrite !getenv_insert_other
    by (intros ->; apply Hk; unfold settings; cbn [In]; tauto).
  reflexivity.
Qed.

Lemma config_ignores_other_variables_witness :
  Config.load Config.decimal_int Config.decimal_float (<["HOME" := "/root"]> bad_env)
  = Config.load Config.decimal_int Config.decimal_float bad_env.
Proof.
  apply (config_ignores_other_variables Config.decimal_int Config.decimal_float
           bad_env "HOME" "/root").
  unfold settings. cbn [In]. intros H.
  repeat (destruct H as [H|H]; [discriminate H|]). exact H.
Defined.

(** X23: when the environment sets no [SOCIONATOR_API_KEY], or an empty
    one, telemetry is off: the initialized watcher has no client, and a
    session with an explicit watch time returns without a single request
    to the telemetry endpoint. *)
Theorem no_api_key_no_telemetry
    {G : Type} `{RandomGen G} `{!RandomGenLaws G}
    (int_of_string : string -> option Z) (float_of_string : string -> option Q)
    (env : gmap string string) (cfg : Config.t) (co : Collab)
    (args : Main.Args) (watch_time : Z) (fuel : nat) (w : World.t G) :
  Config.load int_of_string float_of_string env = Some cfg ->
  Py.truthy (Config.getenv env "SOCIONATOR_API_KEY" "") = false ->
  Main.watch_time args = Some watch_time ->
  watch_time <= 5 * Z.of_nat fuel ->
  Main.socionator (Main.initialized cfg (Main.init args)) = None
  /\ exists success self' w' evs,
       Main.run_session cfg co fuel (Main.initialized cfg (Main.init args)) w
       = (Ret (success, self'), w')
       /\ trace w' = trace w ++ evs
       /\ Forall (fun ev => is_post ev = false) evs.
Proof.
  intros Hload Hkey Hwt Hfuel.
  assert (Hoff : Config.is_socionator_enabled cfg = false).
  { unfold Config.load in Hload.
    repeat match type of Hload with
           | context [mbind _ ?o] => destruct o; cbn [mbind option_bind] in Hload;
                                     [|discriminate Hload]
           end.
    injection Hload as <-. unfold Config.is_socionator_enabled.
    cbn [Config.SOCIONATOR_API_KEY]. now rewrite Hkey. }
  assert (Hnone : Main.socionator (Main.initialized cfg (Main.init args)) = None).
  { unfold Main.initialized. cbn [Main.socionator]. now rewrite Hoff. }
  split; [exact Hnone|].
  set (self := Main.initialized cfg (Main.init args)) in *.
  unfold Main.run_session.
  rewrite (bind_Ret _ _ _ _ _ (eq_refl : Socionator.now co w = (Ret _, w))).
  cbv beta zeta.
  set (self' := Main.set_start_time self (clock co (trace w))).
  change (Main.socionator self') with (Main.socionator self).
  change (Main.args self') with args.
  unfold Main._report_session_completion, Main._report_session_error.
  change (Main.socionator self') with (Main.socionator self).
  rewrite Hnone, Hwt. unfold try_except.
  match goal with |- context [if negb ?c then _ else _] => destruct c end; cbn [negb].
  2: { exists false, self', w, []. rewrite app_nil_r.
       split; [reflexivity|]. split; [reflexivity | constructor]. }
  cbn [bind ret].
  match goal with
  |- context [Automation.simulate_video_watching cfg co fuel ?u (Some watch_time)] =>
    destruct (simulation_returns cfg co fuel u watch_time w Hfuel)
      as (b & w1 & evs & E & Ht & Hp)
  end.
  rewrite (bind_Ret _ _ _ _ _ E).
  destruct b; cbn [bind ret]; eexists _, self', w1, evs;
    (split; [reflexivity|]); split; assumption.
Qed.

Lemma no_api_key_no_telemetry_witness :
  Main.socionator
    (Main.initialized default_config
       (Main.init (Main.mkArgs (Some "https://example.com/v1") (Some 30)
                               None true false))) = None
  /\ exists success self' w' evs,
       Main.run_session default_config calm_page 6
         (Main.initialized default_config
            (Main.init (Main.mkArgs (Some "https://example.com/v1") (Some 30)
                                    None true false)))
         fresh_world
       = (Ret (success, self'), w')
       /\ trace w' = trace fresh_world ++ evs
       /\ Forall (fun ev => is_post ev = false) evs.
Proof.
  apply (no_api_key_no_telemetry Config.decimal_int Config.decimal_float ∅
           default_config calm_page
           (Main.mkArgs (Some "https://example.com/v1") (Some 30) None true false)
           30 6 fresh_world);
    first [ reflexivity | lia ].
Defined.

(** ** Cookies *)

Section CookieJar.
Variable dr : Cookies.Driver.

(** Adding goes through the prefix that the driver accepts and stops at
    the first cookie it refuses. *)
Lemma add_all_accepted (cookies : list Cookies.cookie) :
  forall calls,
    (forall tr c, In c cookies -> Cookies.add_cookie_ok dr tr c = true) ->
    Cookies.add_all dr cookies calls
    = (true, calls ++ map Cookies.AddCookie cookies).
Proof.
  induction cookies as [|c rest IH]; intros calls Hok; cbn [Cookies.add_all map].
  - now rewrite app_nil_r.
  - rewrite (Hok calls c) by (left; reflexivity).
    rewrite IH by (intros tr c' Hc'; apply Hok; right; exact Hc').
    now rewrite <- app_assoc.
Qed.

Lemma add_all_refused (pre : list Cookies.cookie) (c : Cookies.cookie)
    (post : list Cookies.cookie) :
  forall calls,
    (forall tr c', In c' pre -> Cookies.add_cookie_ok dr tr c' = true) ->
    Cookies.add_cookie_ok dr (calls ++ map Cookies.AddCookie pre) c = false ->
    Cookies.add_all dr (pre ++ c :: post) calls
    = (false, calls ++ map Cookies.AddCookie pre ++ [Cookies.AddCookie c]).
Proof.
  induction pre as [|c0 pre IH]; intros calls Hok Hbad; cbn [app Cookies.add_all map].
  - cbn [map] in Hbad. rewrite app_nil_r in Hbad. now rewrite Hbad.
  - rewrite (Hok calls c0) by (left; reflexivity).
    rewrite IH.
    + now rewrite <- app_assoc.
    + intros tr c' Hc'. apply Hok. right. exact Hc'.
    + cbn [map] in Hbad. now rewrite <- app_assoc.
Qed.

End CookieJar.

(** X24: saving and then loading replays the saved cookies: if the
    driver hands out [cookies] and accepts them back, [save] returns [True],
    and the following [load] returns [True] after adding exactly these
    cookies, in the order they were handed out; the saved set is kept. *)
Theorem cookies_round_trip (dr : Cookies.Driver)
    (saved : option (list Cookies.cookie)) (cookies : list Cookies.cookie)
    (calls : list Cookies.call) :
  Cookies.get_cookies dr calls = Some cookies ->
  (forall tr c, In c cookies -> Cookies.add_cookie_ok dr tr c = true) ->
  exists calls1,
    Cookies.manage_cookies dr saved "save" calls = (true, Some cookies, calls1)
    /\ calls1 = calls ++ [Cookies.GetCookies]
    /\ Cookies.manage_cookies dr (Some cookies) "load" calls1
       = (true, Some cookies, calls1 ++ map Cookies.AddCookie cookies).
Proof.
  intros Hget Hadd. exists (calls ++ [Cookies.GetCookies]).
  unfold Cookies.manage_cookies. cbn [String.eqb Ascii.eqb Bool.eqb andb].
  rewrite Hget. split; [reflexivity|]. split; [reflexivity|].
  now rewrite add_all_accepted.
Qed.

Lemma cookies_round_trip_witness :
  exists calls1,
    Cookies.manage_cookies
      (Cookies.mkDriver (fun _ => Some [ {["name" := "sid"]}; {["name" := "lang"]} ])
                        (fun _ _ => true))
      None "save" [] = (true, Some [ {["name" := "sid"]}; {["name" := "lang"]} ], calls1)
    /\ calls1 = [] ++ [Cookies.GetCookies]
    /\ Cookies.manage_cookies
         (Cookies.mkDriver (fun _ => Some [ {["name" := "sid"]}; {["name" := "lang"]} ])
                           (fun _ _ => true))
         (Some [ {["name" := "sid"]}; {["name" := "lang"]} ]) "load" calls1
       = (true, Some [ {["name" := "sid"]}; {["name" := "lang"]} ],
          calls1 ++ map Cookies.AddCookie [ {["name" := "sid"]}; {["name" := "lang"]} ]).
Proof.
  apply (cookies_round_trip
           (Cookies.mkDriver
              (fun _ => Some [ {["name" := "sid"]}; {["name" := "lang"]} ])
              (fun _ _ => true))
           None [ {["name" := "sid"]}; {["name" := "lang"]} ] []).
  - reflexivity.
  - intros tr c _. reflexivity.
Defined.

(** X25: loading stops at the first cookie that the driver refuses: the
    cookies before it have been added, the ones after it are never tried,
    and [manage_cookies] returns [False], keeping the saved set. *)
Theorem cookie_load_stops_at_refusal (dr : Cookies.Driver)
    (pre : list Cookies.cookie) (c : Cookies.cookie) (post : list Cookies.cookie)
    (calls : list Cookies.call) :
  (forall tr c', In c' pre -> Cookies.add_cookie_ok dr tr c' = true) ->
  Cookies.add_cookie_ok dr (calls ++ map Cookies.AddCookie pre) c = false ->
  Cookies.manage_cookies dr (Some (pre ++ c :: post)) "load" calls
  = (false, Some (pre ++ c :: post),
     calls ++ map Cookies.AddCookie pre ++ [Cookies.AddCookie c]).
Proof.
  intros Hok Hbad. unfold Cookies.manage_cookies.
  cbn [String.eqb Ascii.eqb Bool.eqb andb].
  now rewrite add_all_refused.
Qed.

Lemma cookie_load_stops_at_refusal_witness :
  Cookies.manage_cookies picky_driver
    (Some ([ {["name" := "sid"]} ] ++ {["name" := "lang"]} :: [ {["name" := "tz"]} ]))
    "load" []
  = (false,
     Some ([ {["name" := "sid"]} ] ++ {["name" := "lang"]} :: [ {["name" := "tz"]} ]),
     [] ++ map Cookies.AddCookie [ {["name" := "sid"]} ]
        ++ [Cookies.AddCookie {["name" := "lang"]}]).
Proof.
  apply (cookie_load_stops_at_refusal picky_driver
           [ {["name" := "sid"]} ] {["name" := "lang"]} [ {["name" := "tz"]} ] []).
  - intros tr c' [<-|[]]. reflexivity.
  - reflexivity.
Defined.

(** ** Start-up and shutdown *)

(** X26: [TorManager.start] returns [True] exactly when the control
    port accepts the connection and the authentication, and the check
    through the proxy answers 200 with [IsTor] set.  The password is sent
    only when it is not empty, and the controller stays attached from the
    moment the connection is made, also when [start] fails later. *)
Theorem tor_start_succeeds_iff (out : Startup.Outside) (self : Startup.TorManager)
    (calls : list Startup.call) :
  let calls1 := calls ++ [Startup.TorConnect (Startup.host self)
                                             (Startup.control_port self)] in
  let calls2 := calls1 ++ [Startup.TorAuthenticate
                             (if Py.truthy (Startup.password self)
                              then Some (Startup.password self) else None)] in
  exists started tor calls',
    Startup.start out self calls = (started, tor, calls')
    /\ (started = true <->
        Startup.tor_connect_ok out calls = true
        /\ Startup.tor_auth_ok out calls1 = true
        /\ Startup.tor_check out calls2 = Startup.Answer 200 true)
    /\ Startup.controller tor
       = Startup.controller self || Startup.tor_connect_ok out calls
    /\ (Startup.tor_connect_ok out calls = true ->
        exists rest, calls' = calls2 ++ rest
                     /\ (Startup.tor_auth_ok out calls1 = false -> rest = [])).
Proof.
  intros calls1 calls2. unfold Startup.start. fold calls1.
  destruct (Startup.tor_connect_ok out calls) eqn:Hc.
  - cbn [Startup.password Startup.host Startup.port Startup.control_port].
    fold calls2.
    destruct (Startup.tor_auth_ok out calls1) eqn:Ha.
    + unfold Startup.validate_tor_connection.
      destruct (Startup.tor_check out calls2) as [| |status is_tor] eqn:Hk.
      * eexists _, _, _. split; [reflexivity|]. cbn [Startup.controller].
        split; [split; [discriminate | intros (_ & _ & E); discriminate E]|].
        split; [now rewrite orb_true_r|].
        intros _. eexists. split; [reflexivity | discriminate].
      * eexists _, _, _. split; [reflexivity|]. cbn [Startup.controller].
        split; [split; [discriminate | intros (_ & _ & E); discriminate E]|].
        split; [now rewrite orb_true_r|].
        intros _. eexists. split; [reflexivity | discriminate].
      * eexists _, _, _. split; [reflexivity|]. cbn [Startup.controller].
        split; [|split; [now rewrite orb_true_r|
                         intros _; eexists; split; [reflexivity | discriminate]]].
        split.
        -- intro Hv. apply andb_true_iff in Hv. destruct Hv as [Hs ->].
           apply Z.eqb_eq in Hs. subst status. repeat split.
        -- intros (_ & _ & E). injection E as -> ->. reflexivity.
    + eexists _, _, _. split; [reflexivity|]. cbn [Startup.controller].
      split; [split; [discriminate | intros (_ & E & _); discriminate E]|].
      split; [now rewrite orb_true_r|].
      intros _. exists []. split; [now rewrite app_nil_r | reflexivity].
  - eexists _, _, _. split; [reflexivity|].
    split; [split; [discriminate | intros (E & _); discriminate E]|].
    split; [now rewrite orb_false_r | discriminate].
Qed.

(** [TorManager.start] only talks to Tor, keeps the proxy address, and
    has a controller once the control port accepted the connection. *)
Lemma start_run (out : Startup.Outside) (self : Startup.TorManager)
    (calls : list Startup.call) :
  exists started tor new,
    Startup.start out self calls = (started, tor, calls ++ new)
    /\ Startup.socks_url tor = Startup.socks_url self
    /\ Startup.controller tor
       = Startup.controller self || Startup.tor_connect_ok out calls
    /\ Forall (fun c => is_tor_call c = true) new.
Proof.
  unfold Startup.start, Startup.validate_tor_connection.
  destruct (Startup.tor_connect_ok out calls);
    [destruct (Startup.tor_auth_ok out _); [destruct (Startup.tor_check out _)|]|];
    rewrite <- ?app_assoc; eexists _, _, _;
    (split; [reflexivity|]); (split; [reflexivity|]);
    cbn [Startup.controller]; rewrite ?orb_true_r, ?orb_false_r;
    (split; [reflexivity|]); repeat constructor.
Qed.

(** Launching with proxy settings: Chrome is started at most once, with
    the [https] proxy among its options, and no call goes to Tor. *)
Lemma launch_browser_run (cfg : Config.t) (out : Startup.Outside)
    (proxy : string * string) (calls : list Startup.call) :
  exists launched b new,
    Startup.launch_browser cfg out (Startup.browser_init (Some proxy)) calls
    = (launched, b, calls ++ new)
    /\ Startup.driver b = launched
    /\ Forall (fun c => is_tor_call c = false) new
    /\ forall o, In (Startup.StartChrome o) new ->
         In (String.append "--proxy-server=" (snd proxy)) o.
Proof.
  unfold Startup.launch_browser.
  set (options := Startup.chrome_options cfg _ _).
  assert (Hproxy : In (String.append "--proxy-server=" (snd proxy)) options).
  { unfold options, Startup.chrome_options.
    cbn [Startup.proxy_settings Startup.browser_init].
    destruct proxy as [http https]. apply in_or_app. right. apply in_or_app. right.
    left. reflexivity. }
  destruct (Startup.install_ok out _); [destruct (Startup.chrome_ok out _)|];
    rewrite <- ?app_assoc; eexists _, _, _;
    (split; [reflexivity|]); (split; [reflexivity|]);
    (split; [repeat constructor|]); cbn [In app]; intros o Hin;
    repeat (destruct Hin as [Hin|Hin]; [try discriminate Hin|]);
    try contradiction; injection Hin as <-; exact Hproxy.
Qed.

(** Connecting to telemetry makes at most one status request. *)
Lemma initialize_run (out : Startup.Outside) (api : Socionator.SocionatorAPI)
    (calls : list Startup.call) :
  exists connected new,
    Startup.initialize out api calls = (connected, calls ++ new)
    /\ Forall (fun c => is_tor_call c = false) new
    /\ forall o, ~ In (Startup.StartChrome o) new.
Proof.
  unfold Startup.initialize.
  destruct (negb (Py.truthy (Socionator.api_key api))
            || negb (Py.truthy (Socionator.api_endpoint api))).
  - exists false, []. rewrite app_nil_r. split; [reflexivity|].
    split; [constructor | intros o []].
  - eexists _, [_]. split; [reflexivity|]. split; [repeat constructor|].
    intros o [E|[]]. discriminate E.
Qed.

(** Once the proxy is chosen: the browser object is stored, the
    telemetry client is attached exactly when the browser launched and
    telemetry is enabled, and the result is that of the launch. *)
Lemma behind_proxy_run (cfg : Config.t) (out : Startup.Outside)
    (proxy : string * string) (self : Startup.Components)
    (calls : list Startup.call) :
  exists launched b new,
    Startup.initialize_behind_proxy cfg out proxy self calls
    = (launched,
       Startup.mkComponents (Startup.tor_manager self) (Some b)
         (if launched && Config.is_socionator_enabled cfg
          then Some (Socionator.init cfg) else Startup.socionator self),
       calls ++ new)
    /\ Startup.driver b = launched
    /\ Forall (fun c => is_tor_call c = false) new
    /\ forall o, In (Startup.StartChrome o) new ->
         In (String.append "--proxy-server=" (snd proxy)) o.
Proof.
  unfold Startup.initialize_behind_proxy.
  destruct (launch_browser_run cfg out proxy calls)
    as (launched & b & new & E & Hd & Ht & Ho).
  rewrite E. destruct launched; cbn [negb andb].
  - destruct (Config.is_socionator_enabled cfg).
    + destruct (initialize_run out (Socionator.init cfg) (calls ++ new))
        as (connected & new' & E' & Ht' & Ho').
      cbv zeta. rewrite E'. exists true, b, (new ++ new'). rewrite app_assoc.
      split; [reflexivity|]. split; [exact Hd|].
      split; [apply Forall_app; split; assumption|].
      intros o Hin. apply in_app_or in Hin. destruct Hin as [Hin|Hin].
      * exact (Ho o Hin).
      * now apply Ho' in Hin.
    + exists true, b, new. split; [reflexivity|]. split; [exact Hd|].
      split; [exact Ht | exact Ho].
  - exists false, b, new. split; [reflexivity|]. split; [exact Hd|].
    split; [exact Ht | exact Ho].
Qed.

(** A call to Tor does not start Chrome. *)
Lemma tor_calls_start_no_browser (new : list Startup.call) (o : list string) :
  Forall (fun c => is_tor_call c = true) new -> ~ In (Startup.StartChrome o) new.
Proof.
  intros Hall Hin. rewrite List.Forall_forall in Hall.
  specialize (Hall _ Hin). discriminate Hall.
Qed.

(** X27: whatever the outside world answers, [initialize_components]
    starts Chrome only with a [--proxy-server] option: the custom proxy
    when one is given, and otherwise the Tor SOCKS address, and then only
    after [TorManager.start] has returned [True]. *)
Theorem browser_starts_only_behind_proxy (cfg : Config.t) (out : Startup.Outside)
    (custom_proxy : option string) (self : Startup.Components)
    (calls : list Startup.call) :
  exists ok comps new,
    Startup.initialize_components cfg out custom_proxy self calls
    = (ok, comps, calls ++ new)
    /\ forall options, In (Startup.StartChrome options) new ->
         In (String.append "--proxy-server="
               (if Py.truthy (default "" custom_proxy)
                then default "" custom_proxy
                else Startup.socks_url (Startup.tor_init cfg))) options
         /\ (Py.truthy (default "" custom_proxy) = false ->
             fst (fst (Startup.start out (Startup.tor_init cfg) calls)) = true).
Proof.
  unfold Startup.initialize_components.
  destruct (Py.truthy (default "" custom_proxy)) eqn:Hcustom; cbn [negb].
  - destruct (behind_proxy_run cfg out (default "" custom_proxy, default "" custom_proxy)
                self calls) as (launched & b & new & E & _ & _ & Ho).
    rewrite E. eexists _, _, new. split; [reflexivity|].
    intros o Hin. split; [exact (Ho o Hin) | discriminate].
  - destruct (start_run out (Startup.tor_init cfg) calls)
      as (started & tor & new0 & Es & Hurl & _ & Htor).
    rewrite Es. cbn [fst]. destruct started; cbn [negb].
    + destruct (behind_proxy_run cfg out (Startup.get_proxy_settings tor)
                  (Startup.mkComponents (Some tor) (Startup.browser self)
                                        (Startup.socionator self))
                  (calls ++ new0)) as (launched & b & new & E & _ & _ & Ho).
      rewrite E. eexists _, _, (new0 ++ new). rewrite app_assoc.
      split; [reflexivity|]. intros o Hin. split; [|reflexivity].
      apply in_app_or in Hin. destruct Hin as [Hin|Hin].
      * now apply tor_calls_start_no_browser in Hin.
      * rewrite <- Hurl. exact (Ho o Hin).
    + eexists _, _, new0. split; [reflexivity|]. intros o Hin.
      now apply tor_calls_start_no_browser in Hin.
Qed.

(** X28: with a custom proxy, [initialize_components] makes no call to
    Tor, neither on the control port nor through the SOCKS proxy, and
    creates no Tor manager. *)
Theorem custom_proxy_bypasses_tor (cfg : Config.t) (out : Startup.Outside)
    (custom_proxy : option string) (self : Startup.Components)
    (calls : list Startup.call) :
  Py.truthy (default "" custom_proxy) = true ->
  exists ok comps new,
    Startup.initialize_components cfg out custom_proxy self calls
    = (ok, comps, calls ++ new)
    /\ Forall (fun c => is_tor_call c = false) new
    /\ Startup.tor_manager comps = Startup.tor_manager self.
Proof.
  intro Hcustom. unfold Startup.initialize_components. rewrite Hcustom. cbn [negb].
  destruct (behind_proxy_run cfg out (default "" custom_proxy, default "" custom_proxy)
              self calls) as (launched & b & new & E & _ & Ht & _).
  rewrite E. eexists _, _, new. split; [reflexivity|]. split; [exact Ht | reflexivity].
Qed.

Lemma custom_proxy_bypasses_tor_witness :
  exists ok comps new,
    Startup.initialize_components default_config friendly_outside
      (Some "http://10.0.0.1:8080") Startup.no_components []
    = (ok, comps, [] ++ new)
    /\ Forall (fun c => is_tor_call c = false) new
    /\ Startup.tor_manager comps = Startup.tor_manager Startup.no_components.
Proof.
  apply (custom_proxy_bypasses_tor default_config friendly_outside
           (Some "http://10.0.0.1:8080") Startup.no_components []).
  reflexivity.
Defined.

(** X29: on a fresh watcher, [initialize_components] returns [True]
    exactly when Chrome has started; a telemetry endpoint that cannot be
    reached does not make it fail.  When it returns [True], the Tor
    manager and the telemetry client are those the session runs with. *)
Theorem initialization_succeeds_iff_browser_started (cfg : Config.t)
    (out : Startup.Outside) (a : Main.Args) (calls : list Startup.call) :
  exists ok comps calls',
    Startup.initialize_components cfg out (Main.custom_proxy a)
      Startup.no_components calls
    = (ok, comps, calls')
    /\ (ok = true <->
        exists b, Startup.browser comps = Some b /\ Startup.driver b = true)
    /\ Startup.socionator comps
       = (if ok && Config.is_socionator_enabled cfg
          then Some (Socionator.init cfg) else None)
    /\ (ok = true ->
        bool_decide (is_Some (Startup.tor_manager comps))
        = Main.tor_manager (Main.initialized cfg (Main.init a))
        /\ Startup.socionator comps
           = Main.socionator (Main.initialized cfg (Main.init a))).
Proof.
  unfold Startup.initialize_components.
  assert (Hflag : Main.tor_manager (Main.initialized cfg (Main.init a))
                  = negb (Py.truthy (default "" (Main.custom_proxy a)))).
  { cbn. now destruct (Main.custom_proxy a). }
  assert (Hsoc : Main.socionator (Main.initialized cfg (Main.init a))
                 = if Config.is_socionator_enabled cfg
                   then Some (Socionator.init cfg) else None) by reflexivity.
  rewrite Hflag, Hsoc. clear Hflag Hsoc.
  destruct (Py.truthy (default "" (Main.custom_proxy a))) eqn:Hcustom; cbn [negb].
  - destruct (behind_proxy_run cfg out
                (default "" (Main.custom_proxy a), default "" (Main.custom_proxy a))
                Startup.no_components calls) as (launched & b & new & E & Hd & _ & _).
    rewrite E. eexists _, _, _. split; [reflexivity|].
    cbn [Startup.browser Startup.socionator Startup.tor_manager Startup.no_components].
    split; [|split; [reflexivity|]].
    + split; [intros ->; exists b; split; [reflexivity | exact Hd]|].
      intros (b' & Eb & Hb). injection Eb as <-. now rewrite <- Hd.
    + intros ->. split; reflexivity.
  - destruct (start_run out (Startup.tor_init cfg) calls)
      as (started & tor & new0 & Es & _ & _ & _).
    rewrite Es. destruct started; cbn [negb].
    + destruct (behind_proxy_run cfg out (Startup.get_proxy_settings tor)
                  (Startup.mkComponents (Some tor)
                     (Startup.browser Startup.no_components)
                     (Startup.socionator Startup.no_components))
                  (calls ++ new0)) as (launched & b & new & E & Hd & _ & _).
      rewrite E. eexists _, _, _. split; [reflexivity|].
      cbn [Startup.browser Startup.socionator Startup.tor_manager Startup.no_components].
      split; [|split; [reflexivity|]].
      * split; [intros ->; exists b; split; [reflexivity | exact Hd]|].
        intros (b' & Eb & Hb). injection Eb as <-. now rewrite <- Hd.
      * intros ->. split; reflexivity.
    + eexists _, _, _. split; [reflexivity|].
      cbn [Startup.browser Startup.socionator Startup.tor_manager Startup.no_components].
      split; [|split; [reflexivity | discriminate]].
      split; [discriminate | intros (b' & Eb & _); discriminate Eb].
Qed.

(** X30: [cleanup] after [initialize_components] on a fresh watcher
    releases exactly what was acquired, in the order browser, Tor,
    telemetry: Chrome is quit when it had started, the Tor controller is
    closed when the control port had accepted the connection (also when
    the start-up failed later), and the telemetry session is closed when
    the client was created. *)
Theorem cleanup_releases_what_was_acquired (cfg : Config.t) (out : Startup.Outside)
    (custom_proxy : option string) (calls : list Startup.call) :
  exists ok comps new,
    Startup.initialize_components cfg out custom_proxy Startup.no_components calls
    = (ok, comps, calls ++ new)
    /\ Startup.cleanup out comps (calls ++ new)
       = (calls ++ new)
         ++ (if ok then [Startup.DriverQuit] else [])
         ++ (if negb (Py.truthy (default "" custom_proxy))
                && Startup.tor_connect_ok out calls
             then [Startup.TorClose] else [])
         ++ (if ok && Config.is_socionator_enabled cfg
             then [Startup.SessionClose] else []).
Proof.
  unfold Startup.initialize_components.
  destruct (Py.truthy (default "" custom_proxy)) eqn:Hcustom; cbn [negb andb].
  - destruct (behind_proxy_run cfg out (default "" custom_proxy, default "" custom_proxy)
                Startup.no_components calls) as (launched & b & new & E & Hd & _ & _).
    rewrite E. eexists _, _, new. split; [reflexivity|].
    unfold Startup.cleanup, Startup.close_browser, Startup.close.
    cbn [Startup.browser Startup.socionator Startup.tor_manager Startup.no_components].
    rewrite Hd.
    destruct launched, (Config.is_socionator_enabled cfg); cbn [andb app];
      rewrite <- ?app_assoc; cbn [app]; rewrite ?app_nil_r; reflexivity.
  - destruct (start_run out (Startup.tor_init cfg) calls)
      as (started & tor & new0 & Es & _ & Hctl & _).
    cbn [Startup.controller Startup.tor_init orb] in Hctl.
    rewrite Es. destruct started; cbn [negb].
    + destruct (behind_proxy_run cfg out (Startup.get_proxy_settings tor)
                  (Startup.mkComponents (Some tor)
                     (Startup.browser Startup.no_components)
                     (Startup.socionator Startup.no_components))
                  (calls ++ new0)) as (launched & b & new & E & Hd & _ & _).
      rewrite E. eexists _, _, (new0 ++ new). rewrite app_assoc.
      split; [reflexivity|].
      unfold Startup.cleanup, Startup.close_browser, Startup.stop, Startup.close.
      cbn [Startup.browser Startup.socionator Startup.tor_manager Startup.no_components].
      rewrite Hd, Hctl.
      destruct launched, (Config.is_socionator_enabled cfg),
        (Startup.tor_connect_ok out calls); cbn [andb app];
        rewrite <- ?app_assoc; cbn [app]; rewrite ?app_nil_r; reflexivity.
    + eexists _, _, new0. split; [reflexivity|].
      unfold Startup.cleanup, Startup.close_browser, Startup.stop, Startup.close.
      cbn [Startup.browser Startup.socionator Startup.tor_manager Startup.no_components].
      rewrite Hctl.
      destruct (Startup.tor_connect_ok out calls); cbn [andb app];
        rewrite <- ?app_assoc; cbn [app]; rewrite ?app_nil_r; reflexivity.
Qed.
